(** * MIFARE Classic poller: command and authentication layer

    A shallow embedding of [lib/nfc/protocols/mf_classic/mf_classic_poller_i.c]
    and the properties of its operations.

    The C functions work on a [MfClassicPoller] object and call into three
    collaborators whose code lives elsewhere: the ISO14443-3A link layer, the
    Crypto1 stream cipher and a few helpers (CRC, bit buffers, random numbers).
    The poller object is a record, every function takes the object and returns
    its result together with the updated object, and the collaborators appear
    as follows.

    - Bit buffers are records of bytes and a bit count.
    - The cipher, the CRC helpers, the random number generator and the
      numeric values of the command macros are interfaces (type classes): the
      theorems hold for every implementation of them.
    - The link layer is a schedule of answers: each exchange consumes the next
      scheduled answer, which is the error code the link layer returns and the
      contents it leaves in the receive buffer.  Theorems quantify over the
      schedule, so they hold whatever the card and the radio do.
    - Every call into a collaborator is appended to a log kept in the
      object, so that statements such as "no frame is transmitted" or "one
      halt is issued" can be written down. *)

From Stdlib Require Import ZArith List Bool Lia PeanoNat.
Import ListNotations.

Set Implicit Arguments.

(** ** Bit buffers *)

(** [BitBuffer] (toolbox/bit_buffer.h, whose code is outside this file): the
    bytes held and the number of bits that are meaningful.  The accessors
    below follow the names the poller calls them by: [bit_buffer_get_size]
    counts bits, [bit_buffer_get_size_bytes] counts bytes.  Bytes are
    integers in [0, 255]. *)
Record BitBuffer := {
  buf_data : list Z;
  buf_size_bits : nat;
}.

Definition bit_buffer_empty : BitBuffer :=
  {| buf_data := []; buf_size_bits := 0 |}.

(** [bit_buffer_copy_bytes(buf, data, size)]: the buffer now holds exactly the
    first [size] bytes of [data]. *)
Definition bit_buffer_copy_bytes (bytes : list Z) (size_bytes : nat) : BitBuffer :=
  {| buf_data := firstn size_bytes bytes; buf_size_bits := 8 * size_bytes |}.

(** [bit_buffer_get_size]: the size in bits. *)
Definition bit_buffer_get_size (buf : BitBuffer) : nat := buf_size_bits buf.

(** [bit_buffer_get_size_bytes]: the size in bytes, a partial byte counting
    as one. *)
Definition bit_buffer_get_size_bytes (buf : BitBuffer) : nat :=
  buf_size_bits buf / 8 + (if buf_size_bits buf mod 8 =? 0 then 0 else 1).

(** [bit_buffer_get_byte(buf, index)]. *)
Definition bit_buffer_get_byte (buf : BitBuffer) (index : nat) : Z :=
  nth index (buf_data buf) 0%Z.

(** [bit_buffer_get_data(buf)]. *)
Definition bit_buffer_get_data (buf : BitBuffer) : list Z := buf_data buf.

(** [memcpy(dest, src, n)] on byte arrays: the first [n] bytes of [dest] are
    replaced by those of [src] (as many of them as [src] holds). *)
Definition memcpy (dest src : list Z) (n : nat) : list Z :=
  firstn n src ++ skipn (length (firstn n src)) dest.

(** [bit_buffer_write_bytes(buf, dest, size)]: the buffer's bytes are copied
    to the front of the array [dest]. *)
Definition bit_buffer_write_bytes (buf : BitBuffer) (dest : list Z) (size_bytes : nat)
  : list Z :=
  memcpy dest (buf_data buf) size_bytes.

(** ** Enumerations *)

(** [Iso14443_3aError].  The enumerators this file names, and one constructor
    for every other value of the enumeration. *)
Inductive Iso14443_3aError :=
| Iso14443_3aErrorNone
| Iso14443_3aErrorNotPresent
| Iso14443_3aErrorColResFailed
| Iso14443_3aErrorCommunication
| Iso14443_3aErrorWrongCrc
| Iso14443_3aErrorTimeout
| Iso14443_3aErrorOther (raw : Z).

Inductive MfClassicError :=
| MfClassicErrorNone
| MfClassicErrorNotPresent
| MfClassicErrorProtocol
| MfClassicErrorAuth
| MfClassicErrorTimeout.

Inductive MfClassicAuthState :=
| MfClassicAuthStateIdle
| MfClassicAuthStatePassed.

Inductive MfClassicKeyType :=
| MfClassicKeyTypeA
| MfClassicKeyTypeB.

(** [MfClassicValueCommand].  A C enumeration object can hold any integer:
    [MfClassicValueCommandRaw] stands for every value that is not one of the
    three commands. *)
Inductive MfClassicValueCommand :=
| MfClassicValueCommandIncrement
| MfClassicValueCommandDecrement
| MfClassicValueCommandRestore
| MfClassicValueCommandRaw (raw : Z).

(** The state of the link-layer poller: this file only ever names [Idle]. *)
Inductive Iso14443_3aPollerState :=
| Iso14443_3aPollerStateIdle
| Iso14443_3aPollerStateOther (raw : Z).

(** Fixed-size byte arrays: [MfClassicNt], [MfClassicNr], [MfClassicAr],
    [MfClassicAt] (4 bytes), [MfClassicKey] (6 bytes), [MfClassicBlock]
    (16 bytes). *)
Definition MfClassicNt := list Z.
Definition MfClassicNr := list Z.
Definition MfClassicAr := list Z.
Definition MfClassicAt := list Z.
Definition MfClassicKey := list Z.
Definition MfClassicBlock := list Z.

Definition sizeof_MfClassicNt : nat := 4.
Definition sizeof_MfClassicNr : nat := 4.
Definition sizeof_MfClassicAr : nat := 4.
Definition sizeof_MfClassicAt : nat := 4.
Definition sizeof_MfClassicKey : nat := 6.
Definition sizeof_MfClassicBlock : nat := 16.

(** [MfClassicNt nt = {}], [MfClassicNr nr = {}]. *)
Definition zeroed (n : nat) : list Z := repeat 0%Z n.

Record MfClassicAuthContext := {
  ctx_nt : MfClassicNt;
  ctx_nr : MfClassicNr;
  ctx_ar : MfClassicAr;
  ctx_at : MfClassicAt;
}.

(** ** Error mapping *)

Definition mf_classic_process_error (error : Iso14443_3aError) : MfClassicError :=
  match error with
  | Iso14443_3aErrorNone => MfClassicErrorNone
  | Iso14443_3aErrorNotPresent => MfClassicErrorNotPresent
  | Iso14443_3aErrorColResFailed
  | Iso14443_3aErrorCommunication
  | Iso14443_3aErrorWrongCrc => MfClassicErrorProtocol
  | Iso14443_3aErrorTimeout => MfClassicErrorTimeout
  | _ => MfClassicErrorProtocol
  end.

(** [bit_lib_bytes_to_num_be]: the bytes read as a big-endian number. *)
Definition bit_lib_bytes_to_num_be (bytes : list Z) (len : nat) : Z :=
  fold_left (fun acc b => (acc * 256 + b)%Z) (firstn len bytes) 0%Z.

(** ** Collaborators *)

(** The command set and timing constant of [mf_classic.h]. *)
Class MfClassicDefs := {
  MF_CLASSIC_CMD_AUTH_KEY_A : Z;
  MF_CLASSIC_CMD_AUTH_KEY_B : Z;
  MF_CLASSIC_CMD_BACKDOOR_AUTH_KEY_A : Z;
  MF_CLASSIC_CMD_BACKDOOR_AUTH_KEY_B : Z;
  MF_CLASSIC_CMD_READ_BLOCK : Z;
  MF_CLASSIC_CMD_WRITE_BLOCK : Z;
  MF_CLASSIC_CMD_VALUE_DEC : Z;
  MF_CLASSIC_CMD_VALUE_INC : Z;
  MF_CLASSIC_CMD_VALUE_RESTORE : Z;
  MF_CLASSIC_CMD_VALUE_TRANSFER : Z;
  MF_CLASSIC_CMD_HALT_MSB : Z;
  MF_CLASSIC_CMD_HALT_LSB : Z;
  MF_CLASSIC_CMD_ACK : Z;
  MF_CLASSIC_FWT_FC : Z;
}.

(** The Crypto1 stream cipher: a running state and the four operations this
    file calls.  Each returns the state it leaves behind. *)
Class Crypto1Ops := {
  Crypto1 : Type;
  (* crypto1_encrypt(crypto, NULL, plain, encrypted) *)
  cipher_encrypt : Crypto1 -> BitBuffer -> Crypto1 * BitBuffer;
  (* crypto1_decrypt(crypto, encrypted, plain) *)
  cipher_decrypt : Crypto1 -> BitBuffer -> Crypto1 * BitBuffer;
  (* crypto1_encrypt_reader_nonce(crypto, key, cuid, nt, nr, out, is_nested) *)
  cipher_encrypt_reader_nonce :
    Crypto1 -> Z -> Z -> list Z -> list Z -> bool -> Crypto1 * BitBuffer;
  (* crypto1_word(crypto, in, is_encrypted), result discarded *)
  cipher_word : Crypto1 -> Z -> Z -> Crypto1;
}.

(** ISO14443 helpers: the CRC over a bit buffer, the card data kept by the
    link layer and the identifier derived from it. *)
Class Iso14443Ops := {
  crc_append : BitBuffer -> BitBuffer;
  crc_check : BitBuffer -> bool;
  crc_trim : BitBuffer -> BitBuffer;
  Iso14443_3aData : Type;
  iso14443_3a_get_cuid : Iso14443_3aData -> Z;
}.

(** The platform: the hardware random number generator, and the bytes of an
    [int32_t] object as [(uint8_t* )&data] sees them. *)
Class FuriHalOps := {
  Rng : Type;
  random_fill_buf : Rng -> nat -> list Z * Rng;
  int32_object_bytes : Z -> list Z;
}.

(** Calls into the collaborators, as logged. *)
Inductive Call :=
| CallSendStandardFrame (tx : BitBuffer) (fwt : Z)
| CallTxrxCustomParity (tx : BitBuffer) (fwt : Z)
| CallIso14443_3aPollerHalt
| CallCrypto1Encrypt (plain : BitBuffer)
| CallCrypto1Decrypt (encrypted : BitBuffer)
| CallCrypto1EncryptReaderNonce (key_num cuid : Z) (nt nr : list Z) (is_nested : bool)
| CallCrypto1Word
| CallRandomFillBuf (size : nat).

Definition is_halt_call (c : Call) : bool :=
  match c with CallIso14443_3aPollerHalt => true | _ => false end.

Definition is_transmission (c : Call) : bool :=
  match c with
  | CallSendStandardFrame _ _ | CallTxrxCustomParity _ _ => true
  | _ => false
  end.

Definition is_cipher_init_or_advance (c : Call) : bool :=
  match c with
  | CallCrypto1EncryptReaderNonce _ _ _ _ _ | CallCrypto1Word => true
  | _ => false
  end.

Definition is_word_call (c : Call) : bool :=
  match c with CallCrypto1Word => true | _ => false end.

(** How many times the link layer's halt was called. *)
Definition halt_calls (cs : list Call) : nat := length (filter is_halt_call cs).

(** How many times the cipher was advanced by a word. *)
Definition word_calls (cs : list Call) : nat := length (filter is_word_call cs).

(** The frames handed to the link layer, oldest first. *)
Definition transmissions (cs : list Call) : list Call := filter is_transmission cs.

Section Poller.

Context {defs : MfClassicDefs} {cipher : Crypto1Ops} {iso : Iso14443Ops}
        {hal : FuriHalOps}.

(** ** The poller object *)

(** The link-layer poller as this file sees it: its [state] field, the card
    data it hands out, and the answers it will give to the coming
    exchanges. *)
Record Iso14443_3aPoller := {
  poller_state : Iso14443_3aPollerState;
  poller_data : Iso14443_3aData;
  poller_answers : list (Iso14443_3aError * BitBuffer);
}.

(** [MfClassicPoller].  [iso14443_3a_data] is [instance->data->iso14443_3a_data];
    [rng] and [calls] are not fields of the C structure: they hold the random
    number generator and the log of calls. *)
Record MfClassicPoller := {
  iso14443_3a_poller : Iso14443_3aPoller;
  auth_state : MfClassicAuthState;
  crypto : Crypto1;
  tx_plain_buffer : BitBuffer;
  tx_encrypted_buffer : BitBuffer;
  rx_plain_buffer : BitBuffer;
  rx_encrypted_buffer : BitBuffer;
  iso14443_3a_data : Iso14443_3aData;
  rng : Rng;
  calls : list Call;
}.

Inductive Buffer := TxPlain | TxEncrypted | RxPlain | RxEncrypted.

Definition buffer (b : Buffer) (i : MfClassicPoller) : BitBuffer :=
  match b with
  | TxPlain => tx_plain_buffer i
  | TxEncrypted => tx_encrypted_buffer i
  | RxPlain => rx_plain_buffer i
  | RxEncrypted => rx_encrypted_buffer i
  end.

Definition set_buffer (b : Buffer) (v : BitBuffer) (i : MfClassicPoller)
  : MfClassicPoller :=
  {| iso14443_3a_poller := iso14443_3a_poller i;
     auth_state := auth_state i;
     crypto := crypto i;
     tx_plain_buffer := match b with TxPlain => v | _ => tx_plain_buffer i end;
     tx_encrypted_buffer := match b with TxEncrypted => v | _ => tx_encrypted_buffer i end;
     rx_plain_buffer := match b with RxPlain => v | _ => rx_plain_buffer i end;
     rx_encrypted_buffer := match b with RxEncrypted => v | _ => rx_encrypted_buffer i end;
     iso14443_3a_data := iso14443_3a_data i;
     rng := rng i;
     calls := calls i |}.

Definition set_crypto (c : Crypto1) (i : MfClassicPoller) : MfClassicPoller :=
  {| iso14443_3a_poller := iso14443_3a_poller i;
     auth_state := auth_state i;
     crypto := c;
     tx_plain_buffer := tx_plain_buffer i;
     tx_encrypted_buffer := tx_encrypted_buffer i;
     rx_plain_buffer := rx_plain_buffer i;
     rx_encrypted_buffer := rx_encrypted_buffer i;
     iso14443_3a_data := iso14443_3a_data i;
     rng := rng i;
     calls := calls i |}.

Definition set_auth_state (s : MfClassicAuthState) (i : MfClassicPoller)
  : MfClassicPoller :=
  {| iso14443_3a_poller := iso14443_3a_poller i;
     auth_state := s;
     crypto := crypto i;
     tx_plain_buffer := tx_plain_buffer i;
     tx_encrypted_buffer := tx_encrypted_buffer i;
     rx_plain_buffer := rx_plain_buffer i;
     rx_encrypted_buffer := rx_encrypted_buffer i;
     iso14443_3a_data := iso14443_3a_data i;
     rng := rng i;
     calls := calls i |}.

Definition set_iso14443_3a_poller (p : Iso14443_3aPoller) (i : MfClassicPoller)
  : MfClassicPoller :=
  {| iso14443_3a_poller := p;
     auth_state := auth_state i;
     crypto := crypto i;
     tx_plain_buffer := tx_plain_buffer i;
     tx_encrypted_buffer := tx_encrypted_buffer i;
     rx_plain_buffer := rx_plain_buffer i;
     rx_encrypted_buffer := rx_encrypted_buffer i;
     iso14443_3a_data := iso14443_3a_data i;
     rng := rng i;
     calls := calls i |}.

Definition set_iso14443_3a_data (d : Iso14443_3aData) (i : MfClassicPoller)
  : MfClassicPoller :=
  {| iso14443_3a_poller := iso14443_3a_poller i;
     auth_state := auth_state i;
     crypto := crypto i;
     tx_plain_buffer := tx_plain_buffer i;
     tx_encrypted_buffer := tx_encrypted_buffer i;
     rx_plain_buffer := rx_plain_buffer i;
     rx_encrypted_buffer := rx_encrypted_buffer i;
     iso14443_3a_data := d;
     rng := rng i;
     calls := calls i |}.

Definition set_rng (r : Rng) (i : MfClassicPoller) : MfClassicPoller :=
  {| iso14443_3a_poller := iso14443_3a_poller i;
     auth_state := auth_state i;
     crypto := crypto i;
     tx_plain_buffer := tx_plain_buffer i;
     tx_encrypted_buffer := tx_encrypted_buffer i;
     rx_plain_buffer := rx_plain_buffer i;
     rx_encrypted_buffer := rx_encrypted_buffer i;
     iso14443_3a_data := iso14443_3a_data i;
     rng := r;
     calls := calls i |}.

Definition log_call (c : Call) (i : MfClassicPoller) : MfClassicPoller :=
  {| iso14443_3a_poller := iso14443_3a_poller i;
     auth_state := auth_state i;
     crypto := crypto i;
     tx_plain_buffer := tx_plain_buffer i;
     tx_encrypted_buffer := tx_encrypted_buffer i;
     rx_plain_buffer := rx_plain_buffer i;
     rx_encrypted_buffer := rx_encrypted_buffer i;
     iso14443_3a_data := iso14443_3a_data i;
     rng := rng i;
     calls := calls i ++ [c] |}.

(** [instance->iso14443_3a_poller->state = s]. *)
Definition set_poller_state (s : Iso14443_3aPollerState) (i : MfClassicPoller)
  : MfClassicPoller :=
  set_iso14443_3a_poller
    {| poller_state := s;
       poller_data := poller_data (iso14443_3a_poller i);
       poller_answers := poller_answers (iso14443_3a_poller i) |} i.

(** The answers still scheduled. *)
Definition answers (i : MfClassicPoller) : list (Iso14443_3aError * BitBuffer) :=
  poller_answers (iso14443_3a_poller i).

(** ** Calls into the collaborators, on the poller object *)

(** One exchange with the card: the next scheduled answer gives the error
    code and the contents of the receive buffer [rx].  With nothing scheduled
    no card answers: the exchange times out and [rx] is left as it was. *)
Definition link_exchange (rx : Buffer) (i : MfClassicPoller)
  : Iso14443_3aError * MfClassicPoller :=
  match answers i with
  | [] => (Iso14443_3aErrorTimeout, i)
  | (error, received) :: rest =>
      (error,
       set_buffer rx received
         (set_iso14443_3a_poller
            {| poller_state := poller_state (iso14443_3a_poller i);
               poller_data := poller_data (iso14443_3a_poller i);
               poller_answers := rest |} i))
  end.

Definition iso14443_3a_poller_send_standard_frame
    (tx rx : Buffer) (fwt : Z) (i : MfClassicPoller)
  : Iso14443_3aError * MfClassicPoller :=
  link_exchange rx (log_call (CallSendStandardFrame (buffer tx i) fwt) i).

Definition iso14443_3a_poller_txrx_custom_parity
    (tx rx : Buffer) (fwt : Z) (i : MfClassicPoller)
  : Iso14443_3aError * MfClassicPoller :=
  link_exchange rx (log_call (CallTxrxCustomParity (buffer tx i) fwt) i).

(** [iso14443_3a_poller_halt]: the link layer's own halt.  What it sends and
    what it does to the link layer's bookkeeping is the link layer's
    business; here the call is recorded. *)
Definition iso14443_3a_poller_halt (i : MfClassicPoller) : MfClassicPoller :=
  log_call CallIso14443_3aPollerHalt i.

Definition iso14443_3a_poller_get_data (i : MfClassicPoller) : Iso14443_3aData :=
  poller_data (iso14443_3a_poller i).

Definition iso14443_crc_append (b : Buffer) (i : MfClassicPoller) : MfClassicPoller :=
  set_buffer b (crc_append (buffer b i)) i.

Definition iso14443_crc_trim (b : Buffer) (i : MfClassicPoller) : MfClassicPoller :=
  set_buffer b (crc_trim (buffer b i)) i.

Definition crypto1_encrypt (plain encrypted : Buffer) (i : MfClassicPoller)
  : MfClassicPoller :=
  let r := cipher_encrypt (crypto i) (buffer plain i) in
  set_buffer encrypted (snd r)
    (set_crypto (fst r) (log_call (CallCrypto1Encrypt (buffer plain i)) i)).

Definition crypto1_decrypt (encrypted plain : Buffer) (i : MfClassicPoller)
  : MfClassicPoller :=
  let r := cipher_decrypt (crypto i) (buffer encrypted i) in
  set_buffer plain (snd r)
    (set_crypto (fst r) (log_call (CallCrypto1Decrypt (buffer encrypted i)) i)).

Definition crypto1_encrypt_reader_nonce
    (key_num cuid : Z) (nt nr : list Z) (out : Buffer) (is_nested : bool)
    (i : MfClassicPoller) : MfClassicPoller :=
  let r := cipher_encrypt_reader_nonce (crypto i) key_num cuid nt nr is_nested in
  set_buffer out (snd r)
    (set_crypto (fst r)
       (log_call (CallCrypto1EncryptReaderNonce key_num cuid nt nr is_nested) i)).

Definition crypto1_word (input is_encrypted : Z) (i : MfClassicPoller)
  : MfClassicPoller :=
  set_crypto (cipher_word (crypto i) input is_encrypted) (log_call CallCrypto1Word i).

Definition furi_hal_random_fill_buf (size : nat) (i : MfClassicPoller)
  : list Z * MfClassicPoller :=
  let r := random_fill_buf (rng i) size in
  (fst r, set_rng (snd r) (log_call (CallRandomFillBuf size) i)).

(** ** Nonce retrieval *)

(** [nt] is [None] for a null pointer and [Some] of the array's contents
    otherwise; the second component of the result is what the array holds on
    return. *)
Definition mf_classic_poller_get_nt_common
    (instance : MfClassicPoller) (block_num : Z) (key_type : MfClassicKeyType)
    (nt : option MfClassicNt) (is_nested backdoor_auth : bool)
  : MfClassicError * option MfClassicNt * MfClassicPoller :=
  let auth_type :=
    if negb backdoor_auth then
      match key_type with
      | MfClassicKeyTypeB => MF_CLASSIC_CMD_AUTH_KEY_B
      | _ => MF_CLASSIC_CMD_AUTH_KEY_A
      end
    else
      match key_type with
      | MfClassicKeyTypeB => MF_CLASSIC_CMD_BACKDOOR_AUTH_KEY_B
      | _ => MF_CLASSIC_CMD_BACKDOOR_AUTH_KEY_A
      end in
  let auth_cmd := [auth_type; block_num] in
  let instance := set_buffer TxPlain (bit_buffer_copy_bytes auth_cmd 2) instance in
  (* the size check and the copy into [nt] that follow either exchange *)
  let receive_nt (instance : MfClassicPoller) :=
    if negb (bit_buffer_get_size_bytes (buffer RxPlain instance) =? sizeof_MfClassicNt)
    then (MfClassicErrorProtocol, nt, instance)
    else
      (MfClassicErrorNone,
       option_map
         (fun nt_data =>
            bit_buffer_write_bytes (buffer RxPlain instance) nt_data sizeof_MfClassicNt)
         nt,
       instance) in
  if is_nested then
    let instance := iso14443_crc_append TxPlain instance in
    let instance := crypto1_encrypt TxPlain TxEncrypted instance in
    let (error, instance) :=
      iso14443_3a_poller_txrx_custom_parity TxEncrypted RxPlain MF_CLASSIC_FWT_FC
        instance in
    match error with
    | Iso14443_3aErrorNone => receive_nt instance
    | _ => (mf_classic_process_error error, nt, instance)
    end
  else
    let (error, instance) :=
      iso14443_3a_poller_send_standard_frame TxPlain RxPlain MF_CLASSIC_FWT_FC
        instance in
    match error with
    | Iso14443_3aErrorWrongCrc => receive_nt instance
    | _ => (mf_classic_process_error error, nt, instance)
    end.

Definition mf_classic_poller_get_nt
    (instance : MfClassicPoller) (block_num : Z) (key_type : MfClassicKeyType)
    (nt : option MfClassicNt) (backdoor_auth : bool) :=
  mf_classic_poller_get_nt_common instance block_num key_type nt false backdoor_auth.

Definition mf_classic_poller_get_nt_nested
    (instance : MfClassicPoller) (block_num : Z) (key_type : MfClassicKeyType)
    (nt : option MfClassicNt) (backdoor_auth : bool) :=
  mf_classic_poller_get_nt_common instance block_num key_type nt true backdoor_auth.

(** ** Authentication *)

Definition set_ctx_nt (nt : MfClassicNt) (d : MfClassicAuthContext)
  : MfClassicAuthContext :=
  {| ctx_nt := nt; ctx_nr := ctx_nr d; ctx_ar := ctx_ar d; ctx_at := ctx_at d |}.

(** The [do { ... } while(false)] block of [mf_classic_poller_auth_common].
    [data] is [None] for a null pointer; the second component of the result
    is what the context holds when the block is left. *)
Definition mf_classic_poller_auth_common_block
    (instance : MfClassicPoller) (block_num : Z) (key : MfClassicKey)
    (key_type : MfClassicKeyType) (data : option MfClassicAuthContext)
    (is_nested backdoor_auth early_ret : bool)
  : MfClassicError * option MfClassicAuthContext * MfClassicPoller :=
  let instance :=
    set_iso14443_3a_data (iso14443_3a_poller_get_data instance) instance in
  let nt := zeroed sizeof_MfClassicNt in
  let '(ret, nt_written, instance) :=
    if is_nested
    then mf_classic_poller_get_nt_nested instance block_num key_type (Some nt)
           backdoor_auth
    else mf_classic_poller_get_nt instance block_num key_type (Some nt)
           backdoor_auth in
  let nt := match nt_written with Some v => v | None => nt end in
  match ret with
  | MfClassicErrorNone =>
      let data := option_map (set_ctx_nt nt) data in
      if early_ret then (ret, data, instance)
      else
        let cuid := iso14443_3a_get_cuid (iso14443_3a_data instance) in
        let key_num := bit_lib_bytes_to_num_be key sizeof_MfClassicKey in
        let (nr, instance) := furi_hal_random_fill_buf sizeof_MfClassicNr instance in
        let instance :=
          crypto1_encrypt_reader_nonce key_num cuid nt nr TxEncrypted is_nested
            instance in
        let (error, instance) :=
          iso14443_3a_poller_txrx_custom_parity TxEncrypted RxEncrypted
            MF_CLASSIC_FWT_FC instance in
        match error with
        | Iso14443_3aErrorNone =>
            let ret :=
              if negb (bit_buffer_get_size_bytes (buffer RxEncrypted instance) =? 4)
              then MfClassicErrorAuth else ret in
            let instance := crypto1_word 0 0 instance in
            let instance := set_auth_state MfClassicAuthStatePassed instance in
            let data :=
              option_map
                (fun d =>
                   let nr_ar := bit_buffer_get_data (buffer TxEncrypted instance) in
                   {| ctx_nt := ctx_nt d;
                      ctx_nr := nr;
                      ctx_ar := memcpy (ctx_ar d) (skipn 4 nr_ar) sizeof_MfClassicAr;
                      ctx_at :=
                        bit_buffer_write_bytes (buffer RxEncrypted instance) (ctx_at d)
                          sizeof_MfClassicAt |})
                data in
            (ret, data, instance)
        | _ => (mf_classic_process_error error, data, instance)
        end
  | _ => (ret, data, instance)
  end.

Definition mf_classic_poller_auth_common
    (instance : MfClassicPoller) (block_num : Z) (key : MfClassicKey)
    (key_type : MfClassicKeyType) (data : option MfClassicAuthContext)
    (is_nested backdoor_auth early_ret : bool)
  : MfClassicError * option MfClassicAuthContext * MfClassicPoller :=
  let '(ret, data, instance) :=
    mf_classic_poller_auth_common_block instance block_num key key_type data
      is_nested backdoor_auth early_ret in
  let instance :=
    match ret with
    | MfClassicErrorNone => instance
    | _ => iso14443_3a_poller_halt instance
    end in
  (ret, data, instance).

Definition mf_classic_poller_auth
    (instance : MfClassicPoller) (block_num : Z) (key : MfClassicKey)
    (key_type : MfClassicKeyType) (data : option MfClassicAuthContext)
    (backdoor_auth : bool) :=
  mf_classic_poller_auth_common instance block_num key key_type data false
    backdoor_auth false.

Definition mf_classic_poller_auth_nested
    (instance : MfClassicPoller) (block_num : Z) (key : MfClassicKey)
    (key_type : MfClassicKeyType) (data : option MfClassicAuthContext)
    (backdoor_auth early_ret : bool) :=
  mf_classic_poller_auth_common instance block_num key key_type data true
    backdoor_auth early_ret.

(** ** Session teardown *)

Definition mf_classic_poller_halt (instance : MfClassicPoller)
  : MfClassicError * MfClassicPoller :=
  let halt_cmd := [MF_CLASSIC_CMD_HALT_MSB; MF_CLASSIC_CMD_HALT_LSB] in
  let instance := set_buffer TxPlain (bit_buffer_copy_bytes halt_cmd 2) instance in
  let instance := iso14443_crc_append TxPlain instance in
  let instance := crypto1_encrypt TxPlain TxEncrypted instance in
  let (error, instance) :=
    iso14443_3a_poller_txrx_custom_parity TxEncrypted RxEncrypted MF_CLASSIC_FWT_FC
      instance in
  match error with
  | Iso14443_3aErrorTimeout =>
      let instance := set_auth_state MfClassicAuthStateIdle instance in
      let instance := set_poller_state Iso14443_3aPollerStateIdle instance in
      (MfClassicErrorNone, instance)
  | _ => (mf_classic_process_error error, instance)
  end.

(** ** Block read and write *)

(** [data] is the caller's block; the second component of the result is what
    it holds on return. *)
Definition mf_classic_poller_read_block
    (instance : MfClassicPoller) (block_num : Z) (data : MfClassicBlock)
  : MfClassicError * MfClassicBlock * MfClassicPoller :=
  let read_block_cmd := [MF_CLASSIC_CMD_READ_BLOCK; block_num] in
  let instance := set_buffer TxPlain (bit_buffer_copy_bytes read_block_cmd 2) instance in
  let instance := iso14443_crc_append TxPlain instance in
  let instance := crypto1_encrypt TxPlain TxEncrypted instance in
  let (error, instance) :=
    iso14443_3a_poller_txrx_custom_parity TxEncrypted RxEncrypted MF_CLASSIC_FWT_FC
      instance in
  match error with
  | Iso14443_3aErrorNone =>
      if negb (bit_buffer_get_size_bytes (buffer RxEncrypted instance)
               =? sizeof_MfClassicBlock + 2)
      then (MfClassicErrorProtocol, data, instance)
      else
        let instance := crypto1_decrypt RxEncrypted RxPlain instance in
        if negb (crc_check (buffer RxPlain instance))
        then (MfClassicErrorProtocol, data, instance)
        else
          let instance := iso14443_crc_trim RxPlain instance in
          (MfClassicErrorNone,
           bit_buffer_write_bytes (buffer RxPlain instance) data sizeof_MfClassicBlock,
           instance)
  | _ => (mf_classic_process_error error, data, instance)
  end.

Definition mf_classic_poller_write_block
    (instance : MfClassicPoller) (block_num : Z) (data : MfClassicBlock)
  : MfClassicError * MfClassicPoller :=
  let write_block_cmd := [MF_CLASSIC_CMD_WRITE_BLOCK; block_num] in
  let instance := set_buffer TxPlain (bit_buffer_copy_bytes write_block_cmd 2) instance in
  let instance := iso14443_crc_append TxPlain instance in
  let instance := crypto1_encrypt TxPlain TxEncrypted instance in
  let (error, instance) :=
    iso14443_3a_poller_txrx_custom_parity TxEncrypted RxEncrypted MF_CLASSIC_FWT_FC
      instance in
  match error with
  | Iso14443_3aErrorNone =>
      if negb (bit_buffer_get_size (buffer RxEncrypted instance) =? 4)
      then (MfClassicErrorProtocol, instance)
      else
        let instance := crypto1_decrypt RxEncrypted RxPlain instance in
        if negb (bit_buffer_get_byte (buffer RxPlain instance) 0
                 =? MF_CLASSIC_CMD_ACK)%Z
        then (MfClassicErrorProtocol, instance)
        else
          let instance :=
            set_buffer TxPlain (bit_buffer_copy_bytes data sizeof_MfClassicBlock)
              instance in
          let instance := iso14443_crc_append TxPlain instance in
          let instance := crypto1_encrypt TxPlain TxEncrypted instance in
          let (error, instance) :=
            iso14443_3a_poller_txrx_custom_parity TxEncrypted RxEncrypted
              MF_CLASSIC_FWT_FC instance in
          match error with
          | Iso14443_3aErrorNone =>
              if negb (bit_buffer_get_size (buffer RxEncrypted instance) =? 4)
              then (MfClassicErrorProtocol, instance)
              else
                let instance := crypto1_decrypt RxEncrypted RxPlain instance in
                if negb (bit_buffer_get_byte (buffer RxPlain instance) 0
                         =? MF_CLASSIC_CMD_ACK)%Z
                then (MfClassicErrorProtocol, instance)
                else (MfClassicErrorNone, instance)
          | _ => (mf_classic_process_error error, instance)
          end
  | _ => (mf_classic_process_error error, instance)
  end.

(** ** Value commands *)

(** The selection of [cmd_value] at the head of [mf_classic_poller_value_cmd]. *)
Definition value_cmd_opcode (cmd : MfClassicValueCommand) : Z :=
  match cmd with
  | MfClassicValueCommandDecrement => MF_CLASSIC_CMD_VALUE_DEC
  | MfClassicValueCommandIncrement => MF_CLASSIC_CMD_VALUE_INC
  | _ => MF_CLASSIC_CMD_VALUE_RESTORE
  end.

Definition mf_classic_poller_value_cmd
    (instance : MfClassicPoller) (block_num : Z) (cmd : MfClassicValueCommand)
    (data : Z)
  : MfClassicError * MfClassicPoller :=
  let cmd_value := value_cmd_opcode cmd in
  let value_cmd := [cmd_value; block_num] in
  let instance := set_buffer TxPlain (bit_buffer_copy_bytes value_cmd 2) instance in
  let instance := iso14443_crc_append TxPlain instance in
  let instance := crypto1_encrypt TxPlain TxEncrypted instance in
  let (error, instance) :=
    iso14443_3a_poller_txrx_custom_parity TxEncrypted RxEncrypted MF_CLASSIC_FWT_FC
      instance in
  match error with
  | Iso14443_3aErrorNone =>
      if negb (bit_buffer_get_size (buffer RxEncrypted instance) =? 4)
      then (MfClassicErrorProtocol, instance)
      else
        let instance := crypto1_decrypt RxEncrypted RxPlain instance in
        if negb (bit_buffer_get_byte (buffer RxPlain instance) 0
                 =? MF_CLASSIC_CMD_ACK)%Z
        then (MfClassicErrorProtocol, instance)
        else
          let instance :=
            set_buffer TxPlain (bit_buffer_copy_bytes (int32_object_bytes data) 4)
              instance in
          let instance := iso14443_crc_append TxPlain instance in
          let instance := crypto1_encrypt TxPlain TxEncrypted instance in
          let (error, instance) :=
            iso14443_3a_poller_txrx_custom_parity TxEncrypted RxEncrypted
              MF_CLASSIC_FWT_FC instance in
          (* Command processed if tag doesn't respond *)
          match error with
          | Iso14443_3aErrorTimeout => (MfClassicErrorNone, instance)
          | _ => (MfClassicErrorProtocol, instance)
          end
  | _ => (mf_classic_process_error error, instance)
  end.

Definition mf_classic_poller_value_transfer
    (instance : MfClassicPoller) (block_num : Z)
  : MfClassicError * MfClassicPoller :=
  let transfer_cmd := [MF_CLASSIC_CMD_VALUE_TRANSFER; block_num] in
  let instance := set_buffer TxPlain (bit_buffer_copy_bytes transfer_cmd 2) instance in
  let instance := iso14443_crc_append TxPlain instance in
  let instance := crypto1_encrypt TxPlain TxEncrypted instance in
  let (error, instance) :=
    iso14443_3a_poller_txrx_custom_parity TxEncrypted RxEncrypted MF_CLASSIC_FWT_FC
      instance in
  match error with
  | Iso14443_3aErrorNone =>
      if negb (bit_buffer_get_size (buffer RxEncrypted instance) =? 4)
      then (MfClassicErrorProtocol, instance)
      else
        let instance := crypto1_decrypt RxEncrypted RxPlain instance in
        if negb (bit_buffer_get_byte (buffer RxPlain instance) 0
                 =? MF_CLASSIC_CMD_ACK)%Z
        then (MfClassicErrorProtocol, instance)
        else (MfClassicErrorNone, instance)
  | _ => (mf_classic_process_error error, instance)
  end.

(** ** The failure path of authentication, as specified

    The specification words the last step of authentication as "on any error,
    issue SessionTeardown's halt sequence before returning".  This is
    [mf_classic_poller_auth_common] with that step taken literally, that is
    with [mf_classic_poller_halt] in the place of the link layer's halt; it
    is here to be compared with the code. *)
Definition auth_common_with_session_teardown
    (instance : MfClassicPoller) (block_num : Z) (key : MfClassicKey)
    (key_type : MfClassicKeyType) (data : option MfClassicAuthContext)
    (is_nested backdoor_auth early_ret : bool)
  : MfClassicError * option MfClassicAuthContext * MfClassicPoller :=
  let '(ret, data, instance) :=
    mf_classic_poller_auth_common_block instance block_num key key_type data
      is_nested backdoor_auth early_ret in
  let instance :=
    match ret with
    | MfClassicErrorNone => instance
    | _ => snd (mf_classic_poller_halt instance)
    end in
  (ret, data, instance).

(** ** Frame primitives offered to callers

    The caller owns [tx_buffer] and [rx_buffer]: they are taken by value, and
    what [rx_buffer] holds on return is part of the result. *)

(** One exchange with the card into a buffer of the caller: as
    [link_exchange], the answer landing in [rx]. *)
Definition link_exchange_into (rx : BitBuffer) (i : MfClassicPoller)
  : Iso14443_3aError * BitBuffer * MfClassicPoller :=
  match answers i with
  | [] => (Iso14443_3aErrorTimeout, rx, i)
  | (error, received) :: rest =>
      (error, received,
       set_iso14443_3a_poller
         {| poller_state := poller_state (iso14443_3a_poller i);
            poller_data := poller_data (iso14443_3a_poller i);
            poller_answers := rest |} i)
  end.

Definition mf_classic_poller_send_standard_frame
    (instance : MfClassicPoller) (tx_buffer rx_buffer : BitBuffer) (fwt_fc : Z)
  : MfClassicError * BitBuffer * MfClassicPoller :=
  let '(error, rx_buffer, instance) :=
    link_exchange_into rx_buffer
      (log_call (CallSendStandardFrame tx_buffer fwt_fc) instance) in
  (mf_classic_process_error error, rx_buffer, instance).

Definition mf_classic_poller_send_custom_parity_frame
    (instance : MfClassicPoller) (tx_buffer rx_buffer : BitBuffer) (fwt_fc : Z)
  : MfClassicError * BitBuffer * MfClassicPoller :=
  let '(error, rx_buffer, instance) :=
    link_exchange_into rx_buffer
      (log_call (CallTxrxCustomParity tx_buffer fwt_fc) instance) in
  (mf_classic_process_error error, rx_buffer, instance).

Definition mf_classic_poller_send_encrypted_frame
    (instance : MfClassicPoller) (tx_buffer rx_buffer : BitBuffer) (fwt_fc : Z)
  : MfClassicError * BitBuffer * MfClassicPoller :=
  (* crypto1_encrypt(instance->crypto, NULL, tx_buffer, instance->tx_encrypted_buffer) *)
  let encrypted := cipher_encrypt (crypto instance) tx_buffer in
  let instance :=
    set_buffer TxEncrypted (snd encrypted)
      (set_crypto (fst encrypted)
         (log_call (CallCrypto1Encrypt tx_buffer) instance)) in
  let (error, instance) :=
    iso14443_3a_poller_txrx_custom_parity TxEncrypted RxEncrypted fwt_fc instance in
  match error with
  | Iso14443_3aErrorNone =>
      (* crypto1_decrypt(instance->crypto, instance->rx_encrypted_buffer, rx_buffer) *)
      let decrypted := cipher_decrypt (crypto instance) (buffer RxEncrypted instance) in
      (MfClassicErrorNone, snd decrypted,
       set_crypto (fst decrypted)
         (log_call (CallCrypto1Decrypt (buffer RxEncrypted instance)) instance))
  | _ => (mf_classic_process_error error, rx_buffer, instance)
  end.

(** The selection of [auth_type] at the head of
    [mf_classic_poller_get_nt_common], for the statements about the frame
    that is sent. *)
Definition auth_cmd_opcode (key_type : MfClassicKeyType) (backdoor_auth : bool) : Z :=
  if negb backdoor_auth then
    match key_type with
    | MfClassicKeyTypeB => MF_CLASSIC_CMD_AUTH_KEY_B
    | _ => MF_CLASSIC_CMD_AUTH_KEY_A
    end
  else
    match key_type with
    | MfClassicKeyTypeB => MF_CLASSIC_CMD_BACKDOOR_AUTH_KEY_B
    | _ => MF_CLASSIC_CMD_BACKDOOR_AUTH_KEY_A
    end.

(** The parts of the poller object that say in which session it is: the
    authentication state, the link-layer poller's state and the two copies
    of the card data. *)
Definition keeps_session (before after : MfClassicPoller) : Prop :=
  auth_state after = auth_state before /\
  poller_state (iso14443_3a_poller after)
  = poller_state (iso14443_3a_poller before) /\
  poller_data (iso14443_3a_poller after)
  = poller_data (iso14443_3a_poller before) /\
  iso14443_3a_data after = iso14443_3a_data before.

(** ** Vocabulary for the statements *)

(** A two-byte command followed by its checksum, before encryption. *)
Definition command_frame (opcode block_num : Z) : BitBuffer :=
  crc_append (bit_buffer_copy_bytes [opcode; block_num] 2).

(** What the cipher, in state [c], puts on the wire for [plain]. *)
Definition encrypted_frame (c : Crypto1) (plain : BitBuffer) : BitBuffer :=
  snd (cipher_encrypt c plain).

(** The plaintext of an answer [received] to the frame [plain], the cipher
    having been in state [c] before [plain] was encrypted. *)
Definition decrypted_answer (c : Crypto1) (plain received : BitBuffer) : BitBuffer :=
  snd (cipher_decrypt (fst (cipher_encrypt c plain)) received).

(** The state in which the cipher is left by that encryption and decryption. *)
Definition cipher_after_answer (c : Crypto1) (plain received : BitBuffer) : Crypto1 :=
  fst (cipher_decrypt (fst (cipher_encrypt c plain)) received).

(** The calls logged between two states of the poller object. *)
Definition new_calls (before after : MfClassicPoller) : list Call :=
  skipn (length (calls before)) (calls after).

End Poller.

(** ** A simulated card and platform

    An implementation of the collaborators on which the model runs: the
    command values of the MIFARE Classic command set, a null cipher (the
    keystream is all zeros, the state counts the bytes processed), a two-byte
    checksum, a counter for a random number generator and a little-endian
    target. *)

#[export] Instance sim_defs : MfClassicDefs := {|
  MF_CLASSIC_CMD_AUTH_KEY_A := 0x60;
  MF_CLASSIC_CMD_AUTH_KEY_B := 0x61;
  MF_CLASSIC_CMD_BACKDOOR_AUTH_KEY_A := 0x64;
  MF_CLASSIC_CMD_BACKDOOR_AUTH_KEY_B := 0x65;
  MF_CLASSIC_CMD_READ_BLOCK := 0x30;
  MF_CLASSIC_CMD_WRITE_BLOCK := 0xA0;
  MF_CLASSIC_CMD_VALUE_DEC := 0xC0;
  MF_CLASSIC_CMD_VALUE_INC := 0xC1;
  MF_CLASSIC_CMD_VALUE_RESTORE := 0xC2;
  MF_CLASSIC_CMD_VALUE_TRANSFER := 0xB0;
  MF_CLASSIC_CMD_HALT_MSB := 0x50;
  MF_CLASSIC_CMD_HALT_LSB := 0x00;
  MF_CLASSIC_CMD_ACK := 0x0A;
  MF_CLASSIC_FWT_FC := 60000;
|}.

#[export] Instance sim_cipher : Crypto1Ops := {|
  Crypto1 := nat;
  cipher_encrypt := fun c plain => (c + length (buf_data plain), plain);
  cipher_decrypt := fun c encrypted => (c + length (buf_data encrypted), encrypted);
  cipher_encrypt_reader_nonce := fun _ _ _ nt nr _ =>
    (8, bit_buffer_copy_bytes (nr ++ nt) 8);
  cipher_word := fun c _ _ => c + 4;
|}.

Definition sim_checksum (bytes : list Z) : list Z :=
  [fold_left Z.lxor bytes 0%Z; Z.of_nat (length bytes)].

Definition sim_crc_append (buf : BitBuffer) : BitBuffer :=
  {| buf_data := buf_data buf ++ sim_checksum (buf_data buf);
     buf_size_bits := buf_size_bits buf + 16 |}.

Definition sim_crc_trim (buf : BitBuffer) : BitBuffer :=
  {| buf_data := firstn (length (buf_data buf) - 2) (buf_data buf);
     buf_size_bits := buf_size_bits buf - 16 |}.

Definition sim_crc_check (buf : BitBuffer) : bool :=
  let n := length (buf_data buf) - 2 in
  (2 <=? length (buf_data buf))
  && if list_eq_dec Z.eq_dec (skipn n (buf_data buf))
          (sim_checksum (firstn n (buf_data buf)))
     then true else false.

#[export] Instance sim_iso : Iso14443Ops := {|
  crc_append := sim_crc_append;
  crc_check := sim_crc_check;
  crc_trim := sim_crc_trim;
  Iso14443_3aData := Z;
  iso14443_3a_get_cuid := fun uid => uid;
|}.

Definition sim_int32_object_bytes (v : Z) : list Z :=
  let u := (v mod 2 ^ 32)%Z in
  [(u mod 256)%Z; (u / 256 mod 256)%Z; (u / 65536 mod 256)%Z; (u / 16777216 mod 256)%Z].

#[export] Instance sim_hal : FuriHalOps := {|
  Rng := Z;
  random_fill_buf := fun seed n =>
    (map (fun k => ((seed + Z.of_nat k) mod 256)%Z) (seq 0 n), (seed + Z.of_nat n)%Z);
  int32_object_bytes := sim_int32_object_bytes;
|}.

(** A simulated session: the card will give the scheduled answers. *)
Definition sim_poller (st : MfClassicAuthState)
    (scheduled : list (Iso14443_3aError * BitBuffer)) : MfClassicPoller :=
  {| iso14443_3a_poller :=
       {| poller_state := Iso14443_3aPollerStateOther 3;
          poller_data := 0x11223344%Z;
          poller_answers := scheduled |};
     auth_state := st;
     crypto := 0;
     tx_plain_buffer := bit_buffer_empty;
     tx_encrypted_buffer := bit_buffer_empty;
     rx_plain_buffer := bit_buffer_empty;
     rx_encrypted_buffer := bit_buffer_empty;
     iso14443_3a_data := 0%Z;
     rng := 0xA0%Z;
     calls := [] |}.

(** A frame of whole bytes, as the link layer delivers it. *)
Definition frame (bytes : list Z) : BitBuffer :=
  bit_buffer_copy_bytes bytes (length bytes).

(** A 4-bit frame holding the given nibble. *)
Definition nibble_frame (v : Z) : BitBuffer :=
  {| buf_data := [v]; buf_size_bits := 4 |}.


(** * Properties *)

Section Properties.

Context {defs : MfClassicDefs} {cipher : Crypto1Ops} {iso : Iso14443Ops}
        {hal : FuriHalOps}.

(** ** Basic facts *)

#[local] Arguments memcpy : simpl never.
#[local] Arguments bit_lib_bytes_to_num_be : simpl never.
#[local] Arguments zeroed : simpl never.

Lemma mf_classic_process_error_none (e : Iso14443_3aError) :
  e <> Iso14443_3aErrorNone -> mf_classic_process_error e <> MfClassicErrorNone.
Proof. destruct e; simpl; congruence. Qed.

Lemma mf_classic_process_error_categories (e : Iso14443_3aError) :
  e <> Iso14443_3aErrorNone -> e <> Iso14443_3aErrorNotPresent ->
  e <> Iso14443_3aErrorTimeout ->
  mf_classic_process_error e = MfClassicErrorProtocol.
Proof. destruct e; simpl; congruence. Qed.

Lemma memcpy_whole (dest src : list Z) (n : nat) :
  length src = n -> length dest = n -> memcpy dest src n = src.
Proof.
  intros Hs Hd. unfold memcpy.
  rewrite firstn_all2 by lia.
  rewrite skipn_all2 by lia.
  apply app_nil_r.
Qed.

(** Unfolds the calls into the collaborators. *)
Ltac unfold_calls :=
  unfold iso14443_3a_poller_send_standard_frame,
    iso14443_3a_poller_txrx_custom_parity, iso14443_3a_poller_halt,
    iso14443_3a_poller_get_data, iso14443_crc_append, iso14443_crc_trim,
    crypto1_encrypt, crypto1_decrypt, crypto1_encrypt_reader_nonce, crypto1_word,
    furi_hal_random_fill_buf, link_exchange, answers in *.

(** ** Session teardown *)

(** C2 (as amended): when the halt exchange ends in a link-layer error other
    than a timeout, [halt] returns the category the error mapper gives that
    error, which is [NotPresent] for a card that is not detected and
    [Protocol] for every other error, and never success; on every outcome
    other than a timeout, a clean answer included, the authentication state
    and the link-layer poller's state are left as they were; on a timeout
    [halt] returns success, sets the authentication state to [Idle] and sets
    the link-layer poller's state to idle.  So only a timeout makes [halt]
    write either state. *)
Theorem mf_classic_poller_halt_outcome
    (instance : MfClassicPoller) (e : Iso14443_3aError) (rx : BitBuffer)
    (rest : list (Iso14443_3aError * BitBuffer)) :
  answers instance = (e, rx) :: rest ->
  let r := mf_classic_poller_halt instance in
  (e = Iso14443_3aErrorTimeout ->
     fst r = MfClassicErrorNone /\
     auth_state (snd r) = MfClassicAuthStateIdle /\
     poller_state (iso14443_3a_poller (snd r)) = Iso14443_3aPollerStateIdle) /\
  (e <> Iso14443_3aErrorTimeout ->
     auth_state (snd r) = auth_state instance /\
     poller_state (iso14443_3a_poller (snd r))
     = poller_state (iso14443_3a_poller instance)) /\
  (auth_state (snd r) <> auth_state instance \/
   poller_state (iso14443_3a_poller (snd r))
   <> poller_state (iso14443_3a_poller instance) ->
     e = Iso14443_3aErrorTimeout) /\
  (e <> Iso14443_3aErrorTimeout -> e <> Iso14443_3aErrorNone ->
     fst r = mf_classic_process_error e /\
     fst r <> MfClassicErrorNone /\
     (e = Iso14443_3aErrorNotPresent -> fst r = MfClassicErrorNotPresent) /\
     (e <> Iso14443_3aErrorNotPresent -> fst r = MfClassicErrorProtocol)).
Proof.
  intros H r. subst r. unfold mf_classic_poller_halt. unfold_calls.
  simpl. rewrite H.
  destruct e; simpl; repeat split; intros; try congruence;
    match goal with
    | Hc : _ \/ _ |- _ => destruct Hc; congruence
    end.
Qed.

(** ** Nonce retrieval *)

(** C1 (as amended): a fresh nonce request whose exchange reports a checksum
    failure and yields exactly 4 payload bytes returns success with those 4
    bytes as the tag nonce, unmodified; a checksum failure with any other
    payload length returns [Protocol]; a link-layer error other than a
    checksum failure returns the category the error mapper gives it
    ([NotPresent], [Timeout] or [Protocol]), never success; and on every
    outcome other than the first the nonce output is not written. *)
Theorem mf_classic_poller_get_nt_outcome
    (instance : MfClassicPoller) (block_num : Z) (key_type : MfClassicKeyType)
    (nt : option MfClassicNt) (backdoor_auth : bool)
    (e : Iso14443_3aError) (rx : BitBuffer)
    (rest : list (Iso14443_3aError * BitBuffer)) :
  answers instance = (e, rx) :: rest ->
  let r := mf_classic_poller_get_nt instance block_num key_type nt backdoor_auth in
  (e = Iso14443_3aErrorWrongCrc -> bit_buffer_get_size_bytes rx = 4 ->
     fst (fst r) = MfClassicErrorNone /\
     snd (fst r) = option_map (fun old => memcpy old (buf_data rx) 4) nt /\
     (forall old, nt = Some old -> length old = 4 -> length (buf_data rx) = 4 ->
        snd (fst r) = Some (buf_data rx))) /\
  (e = Iso14443_3aErrorWrongCrc -> bit_buffer_get_size_bytes rx <> 4 ->
     fst (fst r) = MfClassicErrorProtocol /\ snd (fst r) = nt) /\
  (e <> Iso14443_3aErrorWrongCrc -> snd (fst r) = nt) /\
  (e <> Iso14443_3aErrorWrongCrc -> e <> Iso14443_3aErrorNone ->
     fst (fst r) = mf_classic_process_error e /\
     fst (fst r) <> MfClassicErrorNone /\
     (fst (fst r) = MfClassicErrorNotPresent \/
      fst (fst r) = MfClassicErrorTimeout \/
      fst (fst r) = MfClassicErrorProtocol)).
Proof.
  intros H r. subst r.
  unfold mf_classic_poller_get_nt, mf_classic_poller_get_nt_common.
  unfold_calls. simpl. rewrite H.
  destruct e; simpl; repeat split; intros; try congruence; auto.
  - apply Nat.eqb_eq in H1. unfold sizeof_MfClassicNt. rewrite H1. reflexivity.
  - apply Nat.eqb_eq in H1. unfold sizeof_MfClassicNt. rewrite H1. reflexivity.
  - apply Nat.eqb_eq in H1. unfold sizeof_MfClassicNt. rewrite H1. simpl.
    subst nt. simpl. unfold bit_buffer_write_bytes.
    rewrite memcpy_whole; auto.
  - apply Nat.eqb_neq in H1. unfold sizeof_MfClassicNt. rewrite H1. reflexivity.
  - apply Nat.eqb_neq in H1. unfold sizeof_MfClassicNt. rewrite H1. reflexivity.
Qed.

Lemma new_calls_app (before after : MfClassicPoller) (l : list Call) :
  calls after = calls before ++ l -> new_calls before after = l.
Proof.
  intros H. unfold new_calls. rewrite H.
  rewrite skipn_app, skipn_all, Nat.sub_diag. reflexivity.
Qed.

(** Puts a log [((before ++ [a]) ++ [b]) ++ ...] in the form [before ++ l]. *)
Ltac log_shape := simpl; rewrite <- ?app_assoc; simpl; reflexivity.

(** One case distinction of the code: on the answers still scheduled, on a
    test, or on an error code. *)
Ltac step :=
  match goal with
  | |- context [match poller_answers ?p with _ => _ end] =>
      destruct (poller_answers p) as [|[? ?] ?] eqn:?
  | |- context [negb ?b] => destruct b eqn:?
  | |- context [match ?x with _ => _ end] =>
      is_var x;
      let T := type of x in
      lazymatch T with
      | Iso14443_3aError => idtac
      | MfClassicKeyType => idtac
      | MfClassicValueCommand => idtac
      | bool => idtac
      | option _ => idtac
      | list (Iso14443_3aError * BitBuffer) => idtac
      | (Iso14443_3aError * BitBuffer)%type => idtac
      end;
      destruct x
  end; simpl.

(** Splits a conjunction of implications and closes the cases that follow
    from the hypotheses by equational reasoning. *)
Ltac settle :=
  repeat split; intros;
  repeat match goal with
         | H : _ /\ _ |- _ => destruct H
         | H : _ \/ _ |- _ => destruct H
         end;
  try congruence; auto.

(** Closes a goal by showing that a negated hypothesis holds after all. *)
Ltac refute :=
  match goal with
  | H : ~ _ |- _ => exfalso; apply H; repeat split; congruence
  end.

(** ** Block read *)

(** C9: [read_block] succeeds exactly when the exchange reports no error, the
    encrypted response is [sizeof(MfClassicBlock) + 2] bytes long and its
    decryption passes the checksum check; it then returns the decrypted bytes
    with the checksum stripped.  On a response of another length or a
    checksum mismatch it returns [Protocol], and whenever it does not succeed
    the caller's block is left as it was. *)
Theorem mf_classic_poller_read_block_outcome
    (instance : MfClassicPoller) (block_num : Z) (data : MfClassicBlock)
    (e : Iso14443_3aError) (rx : BitBuffer)
    (rest : list (Iso14443_3aError * BitBuffer)) :
  answers instance = (e, rx) :: rest ->
  let plain :=
    decrypted_answer (crypto instance)
      (command_frame MF_CLASSIC_CMD_READ_BLOCK block_num) rx in
  let r := mf_classic_poller_read_block instance block_num data in
  (fst (fst r) = MfClassicErrorNone <->
     e = Iso14443_3aErrorNone /\ bit_buffer_get_size_bytes rx = 18 /\
     crc_check plain = true) /\
  (fst (fst r) = MfClassicErrorNone ->
     snd (fst r) = memcpy data (buf_data (crc_trim plain)) 16 /\
     (length data = 16 -> length (buf_data (crc_trim plain)) = 16 ->
        snd (fst r) = buf_data (crc_trim plain))) /\
  (e = Iso14443_3aErrorNone ->
     bit_buffer_get_size_bytes rx <> 18 \/ crc_check plain = false ->
     fst (fst r) = MfClassicErrorProtocol) /\
  (fst (fst r) <> MfClassicErrorNone -> snd (fst r) = data).
Proof.
  intros H plain r. subst plain r.
  unfold mf_classic_poller_read_block, decrypted_answer, command_frame.
  unfold_calls. simpl. rewrite H.
  destruct e; simpl; try solve [settle].
  unfold sizeof_MfClassicBlock. simpl (16 + 2).
  destruct (bit_buffer_get_size_bytes rx =? 18) eqn:Hsize; simpl.
  - apply Nat.eqb_eq in Hsize.
    destruct (crc_check (snd (cipher_decrypt _ rx))) eqn:Hcrc; simpl; settle.
    unfold bit_buffer_write_bytes. apply memcpy_whole; assumption.
  - apply Nat.eqb_neq in Hsize. settle.
Qed.

(** ** Value commands *)

(** C10: a value command that is neither [Increment] nor [Decrement], be it
    [Restore] or any value outside the command set, selects the restore
    opcode, and the first frame the operation transmits is the encryption of
    that opcode, the block number and the checksum. *)
Theorem mf_classic_poller_value_cmd_defaults_to_restore
    (instance : MfClassicPoller) (block_num : Z) (cmd : MfClassicValueCommand)
    (data : Z) :
  cmd <> MfClassicValueCommandIncrement ->
  cmd <> MfClassicValueCommandDecrement ->
  value_cmd_opcode cmd = MF_CLASSIC_CMD_VALUE_RESTORE /\
  hd_error
    (transmissions
       (new_calls instance
          (snd (mf_classic_poller_value_cmd instance block_num cmd data)))) =
  Some
    (CallTxrxCustomParity
       (encrypted_frame (crypto instance)
          (command_frame MF_CLASSIC_CMD_VALUE_RESTORE block_num))
       MF_CLASSIC_FWT_FC).
Proof.
  intros Hinc Hdec.
  assert (Hop : value_cmd_opcode cmd = MF_CLASSIC_CMD_VALUE_RESTORE)
    by (destruct cmd; simpl; congruence).
  split; [exact Hop|].
  unfold mf_classic_poller_value_cmd. rewrite Hop.
  unfold encrypted_frame, command_frame. unfold_calls. simpl.
  repeat step;
    (erewrite new_calls_app; [|log_shape]); reflexivity.
Qed.

(** C5: once the first frame of a value command has been acknowledged, the
    operation returns success if and only if the second frame, which carries
    the operand, ends in a link-layer timeout; every other outcome of the
    second frame, a clean answer included, makes it return [Protocol]. *)
Theorem mf_classic_poller_value_cmd_second_frame
    (instance : MfClassicPoller) (block_num : Z) (cmd : MfClassicValueCommand)
    (data : Z) (rx1 : BitBuffer) (e2 : Iso14443_3aError) (rx2 : BitBuffer)
    (rest : list (Iso14443_3aError * BitBuffer)) :
  answers instance = (Iso14443_3aErrorNone, rx1) :: (e2, rx2) :: rest ->
  bit_buffer_get_size rx1 = 4 ->
  bit_buffer_get_byte
    (decrypted_answer (crypto instance)
       (command_frame (value_cmd_opcode cmd) block_num) rx1) 0
  = MF_CLASSIC_CMD_ACK ->
  let r := mf_classic_poller_value_cmd instance block_num cmd data in
  (fst r = MfClassicErrorNone <-> e2 = Iso14443_3aErrorTimeout) /\
  (e2 <> Iso14443_3aErrorTimeout -> fst r = MfClassicErrorProtocol).
Proof.
  intros H Hsize Hack r. subst r.
  unfold mf_classic_poller_value_cmd.
  unfold decrypted_answer, command_frame in Hack.
  unfold_calls. simpl. rewrite H. simpl.
  apply Nat.eqb_eq in Hsize. rewrite Hsize. simpl.
  apply Z.eqb_eq in Hack. rewrite Hack. simpl.
  destruct e2; simpl; settle.
Qed.

(** ** Block write *)

(** Sending a command: the frame is given its checksum, encrypted and
    exchanged; the answer lands in the encrypted receive buffer. *)
Lemma command_exchange (i : MfClassicPoller) (plain : BitBuffer) :
  exists e i',
    iso14443_3a_poller_txrx_custom_parity TxEncrypted RxEncrypted MF_CLASSIC_FWT_FC
      (crypto1_encrypt TxPlain TxEncrypted
         (iso14443_crc_append TxPlain (set_buffer TxPlain plain i))) = (e, i') /\
    calls i' =
      calls i ++ [CallCrypto1Encrypt (crc_append plain);
                  CallTxrxCustomParity (encrypted_frame (crypto i) (crc_append plain))
                    MF_CLASSIC_FWT_FC] /\
    crypto i' = fst (cipher_encrypt (crypto i) (crc_append plain)) /\
    auth_state i' = auth_state i /\
    match answers i with
    | [] => e = Iso14443_3aErrorTimeout /\ answers i' = []
    | (e0, rx) :: rest => e = e0 /\ rx_encrypted_buffer i' = rx /\ answers i' = rest
    end.
Proof.
  unfold_calls. unfold encrypted_frame. simpl.
  destruct (poller_answers (iso14443_3a_poller i)) as [|[e0 rx] rest] eqn:Ha;
    simpl; do 2 eexists; (split; [reflexivity |]); simpl;
    rewrite <- app_assoc; repeat split; exact Ha.
Qed.

(** The run of [write_block] when two answers are scheduled: the four
    states in which it can stop, with the calls logged up to each, and its
    result as a decision on the two answers. *)
Lemma mf_classic_poller_write_block_run
    (instance : MfClassicPoller) (block_num : Z) (data : MfClassicBlock)
    (e1 : Iso14443_3aError) (rx1 : BitBuffer)
    (e2 : Iso14443_3aError) (rx2 : BitBuffer)
    (rest : list (Iso14443_3aError * BitBuffer)) :
  answers instance = (e1, rx1) :: (e2, rx2) :: rest ->
  let command := command_frame MF_CLASSIC_CMD_WRITE_BLOCK block_num in
  let payload := crc_append (bit_buffer_copy_bytes data sizeof_MfClassicBlock) in
  let c1 := cipher_after_answer (crypto instance) command rx1 in
  let sent1 :=
    CallTxrxCustomParity (encrypted_frame (crypto instance) command)
      MF_CLASSIC_FWT_FC in
  let sent2 := CallTxrxCustomParity (encrypted_frame c1 payload) MF_CLASSIC_FWT_FC in
  exists i1 i1' i2 i2',
    new_calls instance i1 = [CallCrypto1Encrypt command; sent1] /\
    new_calls instance i1' =
      [CallCrypto1Encrypt command; sent1; CallCrypto1Decrypt rx1] /\
    new_calls instance i2 =
      [CallCrypto1Encrypt command; sent1; CallCrypto1Decrypt rx1;
       CallCrypto1Encrypt payload; sent2] /\
    new_calls instance i2' =
      [CallCrypto1Encrypt command; sent1; CallCrypto1Decrypt rx1;
       CallCrypto1Encrypt payload; sent2; CallCrypto1Decrypt rx2] /\
    mf_classic_poller_write_block instance block_num data =
    match e1 with
    | Iso14443_3aErrorNone =>
        if negb (bit_buffer_get_size rx1 =? 4) then (MfClassicErrorProtocol, i1)
        else if negb (bit_buffer_get_byte
                        (decrypted_answer (crypto instance) command rx1) 0
                      =? MF_CLASSIC_CMD_ACK)%Z
        then (MfClassicErrorProtocol, i1')
        else
          match e2 with
          | Iso14443_3aErrorNone =>
              if negb (bit_buffer_get_size rx2 =? 4)
              then (MfClassicErrorProtocol, i2)
              else if negb (bit_buffer_get_byte (decrypted_answer c1 payload rx2) 0
                            =? MF_CLASSIC_CMD_ACK)%Z
              then (MfClassicErrorProtocol, i2')
              else (MfClassicErrorNone, i2')
          | _ => (mf_classic_process_error e2, i2)
          end
    | _ => (mf_classic_process_error e1, i1)
    end.
Proof.
  intros H command payload c1 sent1 sent2.
  (* first phase *)
  destruct (command_exchange instance
              (bit_buffer_copy_bytes [MF_CLASSIC_CMD_WRITE_BLOCK; block_num] 2))
    as (e & i1 & Hx1 & Hcalls1 & Hcrypto1 & _ & Hans1).
  rewrite H in Hans1. destruct Hans1 as (-> & Hrx1 & Hrest1).
  fold command in Hcalls1, Hcrypto1. fold sent1 in Hcalls1.
  (* second phase, from the state the first acknowledgement leaves *)
  destruct (command_exchange (crypto1_decrypt RxEncrypted RxPlain i1)
              (bit_buffer_copy_bytes data sizeof_MfClassicBlock))
    as (e & i2 & Hx2 & Hcalls2 & Hcrypto2 & _ & Hans2).
  unfold answers in Hans2, Hrest1. simpl in Hans2. rewrite Hrest1 in Hans2.
  destruct Hans2 as (-> & Hrx2 & _).
  simpl in Hcalls2, Hcrypto2. rewrite Hrx1, Hcrypto1 in Hcalls2, Hcrypto2.
  fold payload in Hcalls2, Hcrypto2.
  change (fst (cipher_decrypt (fst (cipher_encrypt (crypto instance) command)) rx1))
    with c1 in Hcalls2, Hcrypto2.
  fold sent2 in Hcalls2.
  assert (Hplain1 : rx_plain_buffer (crypto1_decrypt RxEncrypted RxPlain i1)
                    = decrypted_answer (crypto instance) command rx1).
  { simpl. rewrite Hrx1, Hcrypto1. reflexivity. }
  assert (Hplain2 : rx_plain_buffer (crypto1_decrypt RxEncrypted RxPlain i2)
                    = decrypted_answer c1 payload rx2).
  { simpl. rewrite Hrx2, Hcrypto2. reflexivity. }
  exists i1, (crypto1_decrypt RxEncrypted RxPlain i1),
         i2, (crypto1_decrypt RxEncrypted RxPlain i2).
  split; [apply new_calls_app; exact Hcalls1 |].
  split; [apply new_calls_app; simpl;
          rewrite Hcalls1, Hrx1, <- app_assoc; reflexivity |].
  split; [apply new_calls_app; rewrite Hcalls2; simpl;
          rewrite Hcalls1, <- !app_assoc; reflexivity |].
  split; [apply new_calls_app; simpl; rewrite Hcalls2; simpl;
          rewrite Hcalls1, Hrx2, <- !app_assoc; reflexivity |].
  unfold mf_classic_poller_write_block. cbv zeta.
  rewrite Hx1.
  destruct e1; try reflexivity.
  change (buffer RxEncrypted i1) with (rx_encrypted_buffer i1).
  rewrite Hrx1.
  destruct (negb (bit_buffer_get_size rx1 =? 4)); [reflexivity |].
  change (buffer RxPlain (crypto1_decrypt RxEncrypted RxPlain i1))
    with (rx_plain_buffer (crypto1_decrypt RxEncrypted RxPlain i1)).
  rewrite Hplain1.
  destruct (negb (bit_buffer_get_byte
                    (decrypted_answer (crypto instance) command rx1) 0
                  =? MF_CLASSIC_CMD_ACK)%Z); [reflexivity |].
  rewrite Hx2.
  destruct e2; try reflexivity.
  change (buffer RxEncrypted i2) with (rx_encrypted_buffer i2).
  rewrite Hrx2.
  destruct (negb (bit_buffer_get_size rx2 =? 4)); [reflexivity |].
  change (buffer RxPlain (crypto1_decrypt RxEncrypted RxPlain i2))
    with (rx_plain_buffer (crypto1_decrypt RxEncrypted RxPlain i2)).
  rewrite Hplain2.
  reflexivity.
Qed.

(** C8 (as amended): [write_block] proceeds in two phases.  It first sends
    the encrypted write command with its checksum; the acknowledgement it
    waits for is an answer without link-layer error, 4 bits long, whose first
    byte decrypts to the ACK value.  Only then does it send the encrypted 16
    payload bytes with their checksum, and it waits for a second
    acknowledgement of the same shape.  It returns success exactly when both
    acknowledgements arrive; an answer of another size or another first byte
    makes it return [Protocol], and a link-layer error makes it return the
    category the error mapper gives that error. *)
Theorem mf_classic_poller_write_block_outcome
    (instance : MfClassicPoller) (block_num : Z) (data : MfClassicBlock)
    (e1 : Iso14443_3aError) (rx1 : BitBuffer)
    (e2 : Iso14443_3aError) (rx2 : BitBuffer)
    (rest : list (Iso14443_3aError * BitBuffer)) :
  answers instance = (e1, rx1) :: (e2, rx2) :: rest ->
  let command := command_frame MF_CLASSIC_CMD_WRITE_BLOCK block_num in
  let payload := crc_append (bit_buffer_copy_bytes data sizeof_MfClassicBlock) in
  let c1 := cipher_after_answer (crypto instance) command rx1 in
  let ack1 :=
    e1 = Iso14443_3aErrorNone /\ bit_buffer_get_size rx1 = 4 /\
    bit_buffer_get_byte (decrypted_answer (crypto instance) command rx1) 0
    = MF_CLASSIC_CMD_ACK in
  let ack2 :=
    e2 = Iso14443_3aErrorNone /\ bit_buffer_get_size rx2 = 4 /\
    bit_buffer_get_byte (decrypted_answer c1 payload rx2) 0 = MF_CLASSIC_CMD_ACK in
  let sent1 :=
    CallTxrxCustomParity (encrypted_frame (crypto instance) command)
      MF_CLASSIC_FWT_FC in
  let sent2 := CallTxrxCustomParity (encrypted_frame c1 payload) MF_CLASSIC_FWT_FC in
  let r := mf_classic_poller_write_block instance block_num data in
  (fst r = MfClassicErrorNone <-> ack1 /\ ack2) /\
  (ack1 -> transmissions (new_calls instance (snd r)) = [sent1; sent2]) /\
  (~ ack1 -> transmissions (new_calls instance (snd r)) = [sent1]) /\
  (e1 <> Iso14443_3aErrorNone -> fst r = mf_classic_process_error e1) /\
  (e1 = Iso14443_3aErrorNone -> ~ ack1 -> fst r = MfClassicErrorProtocol) /\
  (ack1 -> e2 <> Iso14443_3aErrorNone -> fst r = mf_classic_process_error e2) /\
  (ack1 -> e2 = Iso14443_3aErrorNone -> ~ ack2 -> fst r = MfClassicErrorProtocol).
Proof.
  intros H command payload c1 ack1 ack2 sent1 sent2 r.
  destruct (mf_classic_poller_write_block_run instance block_num data H)
    as (i1 & i1' & i2 & i2' & Hl1 & Hl1' & Hl2 & Hl2' & Hrun).
  fold command payload c1 sent1 sent2 in Hl1, Hl1', Hl2, Hl2', Hrun.
  assert (Hr : r = mf_classic_poller_write_block instance block_num data)
    by reflexivity.
  clearbody r. rewrite Hrun in Hr. clear Hrun.
  subst ack1 ack2.
  destruct e1;
    try solve [subst r; cbn [fst snd mf_classic_process_error];
               rewrite Hl1; settle; refute].
  destruct (bit_buffer_get_size rx1 =? 4) eqn:Hs1;
    [apply Nat.eqb_eq in Hs1 | apply Nat.eqb_neq in Hs1]; cbn [negb] in Hr;
    [| solve [subst r; cbn [fst snd]; rewrite Hl1; settle; refute]].
  destruct (bit_buffer_get_byte (decrypted_answer (crypto instance) command rx1) 0
            =? MF_CLASSIC_CMD_ACK)%Z eqn:Hb1;
    [apply Z.eqb_eq in Hb1 | apply Z.eqb_neq in Hb1]; cbn [negb] in Hr;
    [| solve [subst r; cbn [fst snd]; rewrite Hl1'; settle; refute]].
  destruct e2;
    try solve [subst r; cbn [fst snd mf_classic_process_error];
               rewrite Hl2; settle; refute].
  destruct (bit_buffer_get_size rx2 =? 4) eqn:Hs2;
    [apply Nat.eqb_eq in Hs2 | apply Nat.eqb_neq in Hs2]; cbn [negb] in Hr;
    [| solve [subst r; cbn [fst snd]; rewrite Hl2; settle; refute]].
  destruct (bit_buffer_get_byte (decrypted_answer c1 payload rx2) 0
            =? MF_CLASSIC_CMD_ACK)%Z eqn:Hb2;
    [apply Z.eqb_eq in Hb2 | apply Z.eqb_neq in Hb2]; cbn [negb] in Hr;
    solve [subst r; cbn [fst snd]; rewrite Hl2'; settle; refute].
Qed.

(** ** Authentication *)

Lemma halt_calls_app (a b : list Call) :
  halt_calls (a ++ b) = halt_calls a + halt_calls b.
Proof. unfold halt_calls. rewrite filter_app, length_app. reflexivity. Qed.

Lemma transmissions_app (a b : list Call) :
  transmissions (a ++ b) = transmissions a ++ transmissions b.
Proof. apply filter_app. Qed.

(** What nonce retrieval does to the poller object. *)
Lemma mf_classic_poller_get_nt_common_effect
    (i : MfClassicPoller) (block_num : Z) (key_type : MfClassicKeyType)
    (nt : option MfClassicNt) (is_nested backdoor_auth : bool) :
  let r := mf_classic_poller_get_nt_common i block_num key_type nt is_nested
             backdoor_auth in
  (exists l,
     calls (snd r) = calls i ++ l /\ halt_calls l = 0 /\ word_calls l = 0 /\
     forallb (fun c => negb (is_cipher_init_or_advance c)) l = true /\
     length (transmissions l) = 1) /\
  auth_state (snd r) = auth_state i /\
  iso14443_3a_data (snd r) = iso14443_3a_data i /\
  rng (snd r) = rng i /\
  (is_nested = false -> crypto (snd r) = crypto i) /\
  (forall e rx rest, answers i = (e, rx) :: rest ->
     answers (snd r) = rest /\
     (e = (if is_nested then Iso14443_3aErrorNone else Iso14443_3aErrorWrongCrc) ->
      bit_buffer_get_size_bytes rx = 4 ->
      fst (fst r) = MfClassicErrorNone /\
      snd (fst r) = option_map (fun old => memcpy old (buf_data rx) 4) nt)).
Proof.
  intros r. subst r. unfold mf_classic_poller_get_nt_common. unfold_calls.
  assert (Hsize : forall rx, bit_buffer_get_size_bytes rx = 4 ->
            negb (bit_buffer_get_size_bytes rx =? sizeof_MfClassicNt) = false).
  { intros rx Hrx. rewrite Hrx. reflexivity. }
  destruct is_nested; simpl;
    (destruct (poller_answers (iso14443_3a_poller i)) as [|[e0 rx0] rest0];
     simpl;
     [| destruct e0; simpl;
        try (destruct (negb (bit_buffer_get_size_bytes rx0 =? sizeof_MfClassicNt))
               eqn:Hs; simpl)]);
    (split; [eexists; split; [log_shape | repeat split] |]);
    (do 4 (split; [first [reflexivity | intros; discriminate | intros; reflexivity]
                  |]));
    intros e rx rest Heq; try discriminate Heq;
    injection Heq as <- <- <-;
    (split; [reflexivity |]);
    intros He Hsz; try discriminate He;
    try (rewrite (Hsize _ Hsz) in Hs; discriminate Hs);
    split; reflexivity.
Qed.

(** Both nonce retrieval functions are [get_nt_common]. *)
Lemma mf_classic_poller_get_nt_by_mode
    (i : MfClassicPoller) (block_num : Z) (key_type : MfClassicKeyType)
    (nt : option MfClassicNt) (is_nested backdoor_auth : bool) :
  (if is_nested
   then mf_classic_poller_get_nt_nested i block_num key_type nt backdoor_auth
   else mf_classic_poller_get_nt i block_num key_type nt backdoor_auth)
  = mf_classic_poller_get_nt_common i block_num key_type nt is_nested backdoor_auth.
Proof. destruct is_nested; reflexivity. Qed.

(** The block of [auth_common] only adds to the log, and never calls the
    link layer's halt. *)
Lemma mf_classic_poller_auth_common_block_calls
    (instance : MfClassicPoller) (block_num : Z) (key : MfClassicKey)
    (key_type : MfClassicKeyType) (data : option MfClassicAuthContext)
    (is_nested backdoor_auth early_ret : bool) :
  exists l,
    calls (snd (mf_classic_poller_auth_common_block instance block_num key key_type
                  data is_nested backdoor_auth early_ret)) = calls instance ++ l /\
    halt_calls l = 0.
Proof.
  unfold mf_classic_poller_auth_common_block.
  rewrite mf_classic_poller_get_nt_by_mode.
  match goal with
  | |- context [mf_classic_poller_get_nt_common ?s ?b ?k ?n ?m ?d] =>
      destruct (mf_classic_poller_get_nt_common_effect s b k n m d)
        as ((l & Hl & Hh & _) & _);
      destruct (mf_classic_poller_get_nt_common s b k n m d) as [[ret ntw] i1]
  end.
  simpl in Hl.
  assert (Hdone : exists l', calls i1 = calls instance ++ l' /\ halt_calls l' = 0)
    by (exists l; auto).
  destruct ret; simpl; try exact Hdone.
  destruct early_ret; simpl; try exact Hdone.
  unfold_calls. simpl.
  destruct (poller_answers (iso14443_3a_poller i1)) as [|[e rx] rest]; simpl;
    [| destruct e; simpl];
    rewrite Hl; eexists;
    (split; [rewrite <- ?app_assoc; simpl; reflexivity
            | rewrite halt_calls_app, Hh; reflexivity]).
Qed.

(** C7 (as amended): whenever [auth_common] returns an error it calls the
    link layer's halt exactly once, as the last thing it does; when it
    returns success it calls no halt.  The halt is the link layer's own
    ([iso14443_3a_poller_halt]), not the session teardown of this layer: it
    adds no frame to those this layer encrypts and sends, and it leaves the
    authentication state as the handshake left it. *)
Theorem mf_classic_poller_auth_common_halt
    (instance : MfClassicPoller) (block_num : Z) (key : MfClassicKey)
    (key_type : MfClassicKeyType) (data : option MfClassicAuthContext)
    (is_nested backdoor_auth early_ret : bool) :
  let b := mf_classic_poller_auth_common_block instance block_num key key_type data
             is_nested backdoor_auth early_ret in
  let r := mf_classic_poller_auth_common instance block_num key key_type data
             is_nested backdoor_auth early_ret in
  halt_calls (new_calls instance (snd r)) =
    match fst (fst r) with MfClassicErrorNone => 0 | _ => 1 end /\
  (fst (fst r) <> MfClassicErrorNone ->
     exists before,
       new_calls instance (snd r) = before ++ [CallIso14443_3aPollerHalt] /\
       halt_calls before = 0) /\
  snd r = match fst (fst r) with
          | MfClassicErrorNone => snd b
          | _ => iso14443_3a_poller_halt (snd b)
          end /\
  auth_state (snd r) = auth_state (snd b) /\
  transmissions (new_calls instance (snd r)) =
    transmissions (new_calls instance (snd b)).
Proof.
  intros b r.
  destruct (mf_classic_poller_auth_common_block_calls instance block_num key
              key_type data is_nested backdoor_auth early_ret) as (l & Hl & Hh).
  fold b in Hl. subst r. unfold mf_classic_poller_auth_common. fold b.
  destruct b as [[ret d] i]. simpl in *.
  assert (Hb : new_calls instance i = l) by (apply new_calls_app; exact Hl).
  assert (Hr : new_calls instance (iso14443_3a_poller_halt i)
               = l ++ [CallIso14443_3aPollerHalt]).
  { apply new_calls_app. unfold iso14443_3a_poller_halt. simpl.
    rewrite Hl, <- app_assoc. reflexivity. }
  destruct ret; simpl; rewrite ?Hb, ?Hr, ?halt_calls_app, ?transmissions_app, ?Hh;
    simpl; rewrite ?app_nil_r; repeat split; try congruence;
    intros _; exists l; split; auto.
Qed.


Lemma word_calls_app (a b : list Call) :
  word_calls (a ++ b) = word_calls a + word_calls b.
Proof. unfold word_calls. rewrite filter_app, length_app. reflexivity. Qed.

(** C4: when the nonce has been retrieved and the answer to the reader
    nonce/response frame arrives without link-layer error but is not exactly
    4 bytes long, [auth_common] returns the authentication error, and has
    still advanced the cipher by one word (once, after the reader frame was
    built) and set the authentication state to [Passed]. *)
Theorem mf_classic_poller_auth_common_short_tag_response
    (instance : MfClassicPoller) (block_num : Z) (key : MfClassicKey)
    (key_type : MfClassicKeyType) (data : option MfClassicAuthContext)
    (is_nested backdoor_auth : bool)
    (e1 : Iso14443_3aError) (rx1 rx2 : BitBuffer)
    (rest : list (Iso14443_3aError * BitBuffer)) :
  answers instance = (e1, rx1) :: (Iso14443_3aErrorNone, rx2) :: rest ->
  e1 = (if is_nested then Iso14443_3aErrorNone else Iso14443_3aErrorWrongCrc) ->
  bit_buffer_get_size_bytes rx1 = 4 ->
  bit_buffer_get_size_bytes rx2 <> 4 ->
  let r := mf_classic_poller_auth_common instance block_num key key_type data
             is_nested backdoor_auth false in
  fst (fst r) = MfClassicErrorAuth /\
  auth_state (snd r) = MfClassicAuthStatePassed /\
  word_calls (new_calls instance (snd r)) = 1 /\
  (exists c0,
     crypto (snd r) =
     cipher_word
       (fst (cipher_encrypt_reader_nonce c0
               (bit_lib_bytes_to_num_be key sizeof_MfClassicKey)
               (iso14443_3a_get_cuid (poller_data (iso14443_3a_poller instance)))
               (memcpy (zeroed 4) (buf_data rx1) 4)
               (fst (random_fill_buf (rng instance) 4))
               is_nested))
       0 0) /\
  (exists before,
     new_calls instance (snd r) =
     before ++ [CallCrypto1Word; CallIso14443_3aPollerHalt]).
Proof.
  intros H He1 Hs1 Hs2 r. subst r.
  apply Nat.eqb_neq in Hs2.
  unfold mf_classic_poller_auth_common, mf_classic_poller_auth_common_block.
  rewrite mf_classic_poller_get_nt_by_mode.
  match goal with
  | |- context [mf_classic_poller_get_nt_common ?s ?b ?k ?n ?m ?d] =>
      destruct (mf_classic_poller_get_nt_common_effect s b k n m d)
        as ((l & Hl & _ & Hw & _) & _ & Hdata & Hrng & _ & Hnext);
      destruct (Hnext _ _ _ H) as (Hrest & Hok);
      destruct (Hok He1 Hs1) as (Hret & Hnt);
      destruct (mf_classic_poller_get_nt_common s b k n m d) as [[ret ntw] i1]
  end.
  simpl in Hl, Hdata, Hrng, Hrest, Hret, Hnt. subst ret ntw.
  unfold answers in Hrest.
  unfold_calls. simpl. rewrite Hrest. simpl.
  unfold sizeof_MfClassicNr. rewrite Hs2, Hdata, Hrng. simpl.
  repeat split.
  - erewrite new_calls_app
      by (simpl; rewrite Hl, <- !app_assoc; simpl; reflexivity).
    rewrite word_calls_app, Hw. reflexivity.
  - eexists. reflexivity.
  - erewrite new_calls_app
      by (simpl; rewrite Hl, <- !app_assoc; simpl; reflexivity).
    eexists (l ++ [_; _; _]).
    rewrite <- app_assoc. reflexivity.
Qed.

(** C6: when [auth_common] is called with [early_ret] set and nonce retrieval
    succeeds, it returns success and does nothing beyond nonce retrieval: the
    poller object is as nonce retrieval left it, so the nonce request is the
    only frame transmitted, the cipher is neither initialised for the
    handshake nor advanced by a word, and the authentication state is the one
    before the call; in the transcript only the tag nonce is stored. *)
Theorem mf_classic_poller_auth_common_early_return
    (instance : MfClassicPoller) (block_num : Z) (key : MfClassicKey)
    (key_type : MfClassicKeyType) (data : option MfClassicAuthContext)
    (is_nested backdoor_auth : bool) :
  let snapshot :=
    set_iso14443_3a_data (iso14443_3a_poller_get_data instance) instance in
  let n := mf_classic_poller_get_nt_common snapshot block_num key_type
             (Some (zeroed sizeof_MfClassicNt)) is_nested backdoor_auth in
  fst (fst n) = MfClassicErrorNone ->
  let r := mf_classic_poller_auth_common instance block_num key key_type data
             is_nested backdoor_auth true in
  fst (fst r) = MfClassicErrorNone /\
  snd r = snd n /\
  length (transmissions (new_calls instance (snd r))) = 1 /\
  forallb (fun c => negb (is_cipher_init_or_advance c))
    (new_calls instance (snd r)) = true /\
  word_calls (new_calls instance (snd r)) = 0 /\
  halt_calls (new_calls instance (snd r)) = 0 /\
  (is_nested = false -> crypto (snd r) = crypto instance) /\
  auth_state (snd r) = auth_state instance /\
  (forall nt, snd (fst n) = Some nt ->
     snd (fst r) = option_map (set_ctx_nt nt) data /\
     forall d, data = Some d ->
       exists d', snd (fst r) = Some d' /\ ctx_nt d' = nt /\
                  ctx_nr d' = ctx_nr d /\ ctx_ar d' = ctx_ar d /\
                  ctx_at d' = ctx_at d).
Proof.
  intros snapshot n Hn r. subst r.
  unfold mf_classic_poller_auth_common, mf_classic_poller_auth_common_block.
  rewrite mf_classic_poller_get_nt_by_mode.
  fold snapshot. fold n.
  destruct (mf_classic_poller_get_nt_common_effect snapshot block_num key_type
              (Some (zeroed sizeof_MfClassicNt)) is_nested backdoor_auth)
    as ((l & Hl & Hh & Hw & Hc & Ht) & Hauth & _ & _ & Hcrypto & _).
  fold n in Hl, Hauth, Hcrypto.
  destruct n as [[ret ntw] i1]. simpl in Hn, Hl, Hauth, Hcrypto. subst ret.
  simpl.
  assert (Hnew : new_calls instance i1 = l) by (apply new_calls_app; exact Hl).
  rewrite Hnew.
  repeat (split; [solve [auto] |]).
  intros nt Hnt. subst ntw. split; [reflexivity |].
  intros d Hd. subst data. simpl. eexists. repeat split.
Qed.

(** * Further properties of the operations *)

(** ** Error mapping *)

(** X1: the error mapper reports success only for a link-layer exchange
    without error, [NotPresent] only for a card not detected and [Timeout]
    only for a timeout; it never produces the authentication error, and any
    code it does not know is a protocol error. *)
Theorem mf_classic_process_error_faithful (e : Iso14443_3aError) :
  (mf_classic_process_error e = MfClassicErrorNone <-> e = Iso14443_3aErrorNone) /\
  (mf_classic_process_error e = MfClassicErrorNotPresent
   <-> e = Iso14443_3aErrorNotPresent) /\
  (mf_classic_process_error e = MfClassicErrorTimeout
   <-> e = Iso14443_3aErrorTimeout) /\
  mf_classic_process_error e <> MfClassicErrorAuth /\
  (forall raw, e = Iso14443_3aErrorOther raw ->
     mf_classic_process_error e = MfClassicErrorProtocol).
Proof.
  destruct e; simpl; repeat split; intros; try congruence.
Qed.

(** ** Nonce retrieval, nested and fresh *)

(** X2: a nested nonce request succeeds exactly when its exchange reports no
    error and yields 4 payload bytes; the nonce handed back is that payload
    as received, no decryption being performed.  A link-layer error is
    returned as its category, another payload length as [Protocol], and then
    the nonce output is not written.  Whatever the outcome, the request (the
    command with its checksum) has been encrypted under the running cipher
    and is the only frame sent. *)
Theorem mf_classic_poller_get_nt_nested_outcome
    (instance : MfClassicPoller) (block_num : Z) (key_type : MfClassicKeyType)
    (nt : option MfClassicNt) (backdoor_auth : bool)
    (e : Iso14443_3aError) (rx : BitBuffer)
    (rest : list (Iso14443_3aError * BitBuffer)) :
  answers instance = (e, rx) :: rest ->
  let request := command_frame (auth_cmd_opcode key_type backdoor_auth) block_num in
  let r := mf_classic_poller_get_nt_nested instance block_num key_type nt
             backdoor_auth in
  (fst (fst r) = MfClassicErrorNone <->
     e = Iso14443_3aErrorNone /\ bit_buffer_get_size_bytes rx = 4) /\
  (fst (fst r) = MfClassicErrorNone ->
     snd (fst r) = option_map (fun old => memcpy old (buf_data rx) 4) nt) /\
  (fst (fst r) <> MfClassicErrorNone -> snd (fst r) = nt) /\
  (e <> Iso14443_3aErrorNone -> fst (fst r) = mf_classic_process_error e) /\
  (e = Iso14443_3aErrorNone -> bit_buffer_get_size_bytes rx <> 4 ->
     fst (fst r) = MfClassicErrorProtocol) /\
  new_calls instance (snd r) =
    [CallCrypto1Encrypt request;
     CallTxrxCustomParity (encrypted_frame (crypto instance) request)
       MF_CLASSIC_FWT_FC] /\
  crypto (snd r) = fst (cipher_encrypt (crypto instance) request).
Proof.
  intros H request r. subst request r.
  unfold mf_classic_poller_get_nt_nested, mf_classic_poller_get_nt_common,
    encrypted_frame, command_frame, auth_cmd_opcode.
  unfold_calls. simpl. rewrite H.
  destruct e; simpl;
    try solve [settle; erewrite new_calls_app by log_shape; reflexivity].
  unfold sizeof_MfClassicNt.
  destruct (bit_buffer_get_size_bytes rx =? 4) eqn:Hsize; simpl;
    [apply Nat.eqb_eq in Hsize | apply Nat.eqb_neq in Hsize];
    settle; erewrite new_calls_app by log_shape; reflexivity.
Qed.

(** X3: a fresh nonce request sends one frame and nothing else: the two
    bytes of the command (the opcode chosen by key type and backdoor flag,
    then the block number), in plain, through the standard-frame call.  The
    cipher is not used and the authentication state is not touched,
    whatever the card answers. *)
Theorem mf_classic_poller_get_nt_request
    (instance : MfClassicPoller) (block_num : Z) (key_type : MfClassicKeyType)
    (nt : option MfClassicNt) (backdoor_auth : bool) :
  let r := mf_classic_poller_get_nt instance block_num key_type nt backdoor_auth in
  new_calls instance (snd r) =
    [CallSendStandardFrame
       (bit_buffer_copy_bytes [auth_cmd_opcode key_type backdoor_auth; block_num] 2)
       MF_CLASSIC_FWT_FC] /\
  crypto (snd r) = crypto instance /\
  auth_state (snd r) = auth_state instance /\
  tx_encrypted_buffer (snd r) = tx_encrypted_buffer instance.
Proof.
  intros r. subst r.
  unfold mf_classic_poller_get_nt, mf_classic_poller_get_nt_common, auth_cmd_opcode.
  unfold_calls. simpl.
  destruct (poller_answers (iso14443_3a_poller instance)) as [|[e rx] rest];
    simpl; [| destruct e; simpl;
              try destruct (negb (bit_buffer_get_size_bytes rx =? sizeof_MfClassicNt));
              simpl];
    (split; [erewrite new_calls_app by log_shape; reflexivity | repeat split]).
Qed.

(** X4: the nonce output may be a null pointer.  Nonce retrieval then does
    the same exchange, returns the same error code and leaves the poller in
    the same state as with a buffer to fill; only the copy is skipped. *)
Theorem mf_classic_poller_get_nt_common_null_pointer
    (instance : MfClassicPoller) (block_num : Z) (key_type : MfClassicKeyType)
    (nt : option MfClassicNt) (is_nested backdoor_auth : bool) :
  let r := mf_classic_poller_get_nt_common instance block_num key_type nt
             is_nested backdoor_auth in
  let r0 := mf_classic_poller_get_nt_common instance block_num key_type None
              is_nested backdoor_auth in
  fst (fst r0) = fst (fst r) /\ snd r0 = snd r /\ snd (fst r0) = None.
Proof.
  intros r r0. subst r r0.
  unfold mf_classic_poller_get_nt_common. unfold_calls.
  destruct is_nested; simpl;
    (destruct (poller_answers (iso14443_3a_poller instance)) as [|[e rx] rest];
     simpl; [| destruct e; simpl;
               try destruct (negb (bit_buffer_get_size_bytes rx
                                   =? sizeof_MfClassicNt));
               simpl]);
    repeat split.
Qed.

(** ** Authentication *)

(** X5: a completed handshake.  When the nonce is retrieved and the reader
    frame is answered, without link-layer error, by exactly 4 bytes,
    [auth_common] returns success with the authentication state [Passed]; it
    has sent two frames, advanced the cipher by one word and called no halt.
    A transcript, when asked for, holds the tag nonce, the reader nonce
    drawn from the random number generator, bytes 4 to 7 of the frame as it
    was transmitted, and the tag's answer as it was received, not
    decrypted. *)
Theorem mf_classic_poller_auth_common_handshake
    (instance : MfClassicPoller) (block_num : Z) (key : MfClassicKey)
    (key_type : MfClassicKeyType) (data : option MfClassicAuthContext)
    (is_nested backdoor_auth : bool)
    (e1 : Iso14443_3aError) (rx1 rx2 : BitBuffer)
    (rest : list (Iso14443_3aError * BitBuffer)) :
  answers instance = (e1, rx1) :: (Iso14443_3aErrorNone, rx2) :: rest ->
  e1 = (if is_nested then Iso14443_3aErrorNone else Iso14443_3aErrorWrongCrc) ->
  bit_buffer_get_size_bytes rx1 = 4 ->
  bit_buffer_get_size_bytes rx2 = 4 ->
  let r := mf_classic_poller_auth_common instance block_num key key_type data
             is_nested backdoor_auth false in
  let nonce := memcpy (zeroed 4) (buf_data rx1) 4 in
  let nr := fst (random_fill_buf (rng instance) 4) in
  fst (fst r) = MfClassicErrorNone /\
  auth_state (snd r) = MfClassicAuthStatePassed /\
  halt_calls (new_calls instance (snd r)) = 0 /\
  word_calls (new_calls instance (snd r)) = 1 /\
  length (transmissions (new_calls instance (snd r))) = 2 /\
  answers (snd r) = rest /\
  rx_encrypted_buffer (snd r) = rx2 /\
  (exists c0,
     tx_encrypted_buffer (snd r) =
       snd (cipher_encrypt_reader_nonce c0
              (bit_lib_bytes_to_num_be key sizeof_MfClassicKey)
              (iso14443_3a_get_cuid (poller_data (iso14443_3a_poller instance)))
              nonce nr is_nested) /\
     (is_nested = false -> c0 = crypto instance)) /\
  (data = None -> snd (fst r) = None) /\
  (forall d, data = Some d ->
     snd (fst r) =
     Some {| ctx_nt := nonce;
             ctx_nr := nr;
             ctx_ar := memcpy (ctx_ar d)
                         (skipn 4 (buf_data (tx_encrypted_buffer (snd r)))) 4;
             ctx_at := memcpy (ctx_at d) (buf_data rx2) 4 |}).
Proof.
  intros H He1 Hs1 Hs2 r nonce nr. subst r nonce nr.
  unfold mf_classic_poller_auth_common, mf_classic_poller_auth_common_block.
  rewrite mf_classic_poller_get_nt_by_mode.
  match goal with
  | |- context [mf_classic_poller_get_nt_common ?s ?b ?k ?n ?m ?d] =>
      destruct (mf_classic_poller_get_nt_common_effect s b k n m d)
        as ((l & Hl & Hh & Hw & _ & Ht) & _ & Hdata & Hrng & Hcrypto & Hnext);
      destruct (Hnext _ _ _ H) as (Hrest & Hok);
      destruct (Hok He1 Hs1) as (Hret & Hnt);
      destruct (mf_classic_poller_get_nt_common s b k n m d) as [[ret ntw] i1]
  end.
  simpl in Hl, Hdata, Hrng, Hrest, Hret, Hnt, Hcrypto. subst ret ntw.
  unfold answers in Hrest.
  unfold_calls. simpl. rewrite Hrest. simpl.
  unfold sizeof_MfClassicNr. rewrite Hs2, Hdata, Hrng. simpl.
  split; [reflexivity |].
  split; [reflexivity |].
  split.
  { erewrite new_calls_app
      by (simpl; rewrite Hl, <- !app_assoc; simpl; reflexivity).
    rewrite halt_calls_app, Hh. reflexivity. }
  split.
  { erewrite new_calls_app
      by (simpl; rewrite Hl, <- !app_assoc; simpl; reflexivity).
    rewrite word_calls_app, Hw. reflexivity. }
  split.
  { erewrite new_calls_app
      by (simpl; rewrite Hl, <- !app_assoc; simpl; reflexivity).
    rewrite transmissions_app, length_app, Ht. reflexivity. }
  split; [reflexivity |].
  split; [reflexivity |].
  split.
  { exists (crypto i1). split; [reflexivity | exact Hcrypto]. }
  split.
  { intros ->. reflexivity. }
  intros d ->. reflexivity.
Qed.

(** X6: a link-layer error on the reader frame.  When the nonce is retrieved
    and the exchange of the reader frame ends in a link-layer error,
    [auth_common] returns that error's category, never success; the
    authentication state is the one before the call, the cipher has not been
    advanced by a word, the link layer's halt has been called once, and of
    the transcript only the tag nonce is written. *)
Theorem mf_classic_poller_auth_common_reader_frame_error
    (instance : MfClassicPoller) (block_num : Z) (key : MfClassicKey)
    (key_type : MfClassicKeyType) (data : option MfClassicAuthContext)
    (is_nested backdoor_auth : bool)
    (e1 e2 : Iso14443_3aError) (rx1 rx2 : BitBuffer)
    (rest : list (Iso14443_3aError * BitBuffer)) :
  answers instance = (e1, rx1) :: (e2, rx2) :: rest ->
  e1 = (if is_nested then Iso14443_3aErrorNone else Iso14443_3aErrorWrongCrc) ->
  bit_buffer_get_size_bytes rx1 = 4 ->
  e2 <> Iso14443_3aErrorNone ->
  let r := mf_classic_poller_auth_common instance block_num key key_type data
             is_nested backdoor_auth false in
  fst (fst r) = mf_classic_process_error e2 /\
  fst (fst r) <> MfClassicErrorNone /\
  auth_state (snd r) = auth_state instance /\
  word_calls (new_calls instance (snd r)) = 0 /\
  halt_calls (new_calls instance (snd r)) = 1 /\
  length (transmissions (new_calls instance (snd r))) = 2 /\
  snd (fst r) = option_map (set_ctx_nt (memcpy (zeroed 4) (buf_data rx1) 4)) data.
Proof.
  intros H He1 Hs1 He2 r. subst r.
  unfold mf_classic_poller_auth_common, mf_classic_poller_auth_common_block.
  rewrite mf_classic_poller_get_nt_by_mode.
  match goal with
  | |- context [mf_classic_poller_get_nt_common ?s ?b ?k ?n ?m ?d] =>
      destruct (mf_classic_poller_get_nt_common_effect s b k n m d)
        as ((l & Hl & Hh & Hw & _ & Ht) & Hauth & _ & _ & _ & Hnext);
      destruct (Hnext _ _ _ H) as (Hrest & Hok);
      destruct (Hok He1 Hs1) as (Hret & Hnt);
      destruct (mf_classic_poller_get_nt_common s b k n m d) as [[ret ntw] i1]
  end.
  simpl in Hl, Hauth, Hrest, Hret, Hnt. subst ret ntw.
  unfold answers in Hrest.
  unfold_calls. simpl. rewrite Hrest. simpl.
  destruct e2; try congruence; simpl;
    (split; [reflexivity |]);
    (split; [discriminate |]);
    (split; [exact Hauth |]);
    (split; [erewrite new_calls_app
               by (simpl; rewrite Hl, <- !app_assoc; simpl; reflexivity);
             rewrite word_calls_app, Hw; reflexivity |]);
    (split; [erewrite new_calls_app
               by (simpl; rewrite Hl, <- !app_assoc; simpl; reflexivity);
             rewrite halt_calls_app, Hh; reflexivity |]);
    (split; [erewrite new_calls_app
               by (simpl; rewrite Hl, <- !app_assoc; simpl; reflexivity);
             rewrite transmissions_app, length_app, Ht; reflexivity |]);
    reflexivity.
Qed.

(** X7: a failed nonce retrieval.  [auth_common] then returns the error of
    nonce retrieval and does nothing more than call the link layer's halt:
    the transcript is not written, no random number is drawn, the cipher is
    neither initialised nor advanced, one frame has been sent and the
    authentication state is the one before the call. *)
Theorem mf_classic_poller_auth_common_nonce_failure
    (instance : MfClassicPoller) (block_num : Z) (key : MfClassicKey)
    (key_type : MfClassicKeyType) (data : option MfClassicAuthContext)
    (is_nested backdoor_auth early_ret : bool) :
  let snapshot :=
    set_iso14443_3a_data (iso14443_3a_poller_get_data instance) instance in
  let n := mf_classic_poller_get_nt_common snapshot block_num key_type
             (Some (zeroed sizeof_MfClassicNt)) is_nested backdoor_auth in
  fst (fst n) <> MfClassicErrorNone ->
  let r := mf_classic_poller_auth_common instance block_num key key_type data
             is_nested backdoor_auth early_ret in
  fst (fst r) = fst (fst n) /\
  snd (fst r) = data /\
  snd r = iso14443_3a_poller_halt (snd n) /\
  auth_state (snd r) = auth_state instance /\
  rng (snd r) = rng instance /\
  length (transmissions (new_calls instance (snd r))) = 1 /\
  halt_calls (new_calls instance (snd r)) = 1 /\
  forallb (fun c => negb (is_cipher_init_or_advance c))
    (new_calls instance (snd r)) = true.
Proof.
  intros snapshot n Hn r. subst r.
  unfold mf_classic_poller_auth_common, mf_classic_poller_auth_common_block.
  rewrite mf_classic_poller_get_nt_by_mode.
  fold snapshot. fold n.
  destruct (mf_classic_poller_get_nt_common_effect snapshot block_num key_type
              (Some (zeroed sizeof_MfClassicNt)) is_nested backdoor_auth)
    as ((l & Hl & Hh & _ & Hc & Ht) & Hauth & _ & Hrng & _ & _).
  fold n in Hl, Hauth, Hrng.
  destruct n as [[ret ntw] i1]. simpl in Hn, Hl, Hauth, Hrng.
  assert (Hnew : new_calls instance (iso14443_3a_poller_halt i1)
                 = l ++ [CallIso14443_3aPollerHalt]).
  { apply new_calls_app. unfold iso14443_3a_poller_halt. simpl.
    rewrite Hl, <- app_assoc. reflexivity. }
  destruct ret; try congruence; simpl; rewrite Hnew;
    rewrite transmissions_app, halt_calls_app, forallb_app, length_app, Hh, Hc, Ht;
    repeat split; assumption.
Qed.

(** X8: what [auth_common] can do to the authentication state.  It never
    sets it to [Idle]: on return the state is the one before the call or
    [Passed].  A success without [early_ret] means [Passed], with a tag
    answer of exactly 4 bytes in the receive buffer; with [early_ret] the
    state is never changed; and the state is never changed when the call
    returns an error other than the authentication error. *)
Theorem mf_classic_poller_auth_common_state_change
    (instance : MfClassicPoller) (block_num : Z) (key : MfClassicKey)
    (key_type : MfClassicKeyType) (data : option MfClassicAuthContext)
    (is_nested backdoor_auth early_ret : bool) :
  let r := mf_classic_poller_auth_common instance block_num key key_type data
             is_nested backdoor_auth early_ret in
  (auth_state (snd r) = auth_state instance \/
   auth_state (snd r) = MfClassicAuthStatePassed) /\
  (fst (fst r) = MfClassicErrorNone -> early_ret = false ->
     auth_state (snd r) = MfClassicAuthStatePassed /\
     bit_buffer_get_size_bytes (rx_encrypted_buffer (snd r)) = 4) /\
  (early_ret = true -> auth_state (snd r) = auth_state instance) /\
  (fst (fst r) <> MfClassicErrorNone -> fst (fst r) <> MfClassicErrorAuth ->
     auth_state (snd r) = auth_state instance).
Proof.
  intros r. subst r.
  unfold mf_classic_poller_auth_common, mf_classic_poller_auth_common_block.
  rewrite mf_classic_poller_get_nt_by_mode.
  match goal with
  | |- context [mf_classic_poller_get_nt_common ?s ?b ?k ?n ?m ?d] =>
      destruct (mf_classic_poller_get_nt_common_effect s b k n m d)
        as (_ & Hauth & _);
      destruct (mf_classic_poller_get_nt_common s b k n m d) as [[ret ntw] i1]
  end.
  simpl in Hauth.
  destruct ret; simpl; try solve [settle].
  destruct early_ret; simpl; try solve [settle].
  unfold_calls. simpl.
  destruct (poller_answers (iso14443_3a_poller i1)) as [|[e rx] rest]; simpl;
    [solve [settle] |].
  destruct e; simpl; try solve [settle].
  destruct (bit_buffer_get_size_bytes rx =? 4) eqn:Hs; simpl;
    [apply Nat.eqb_eq in Hs |]; settle.
Qed.

(** X9: asking for a transcript does not change what [auth_common] does on
    the wire: the error code returned and the state in which the poller is
    left are the same with and without a transcript, and without one
    nothing is handed back. *)
Theorem mf_classic_poller_auth_common_transcript_is_passive
    (instance : MfClassicPoller) (block_num : Z) (key : MfClassicKey)
    (key_type : MfClassicKeyType) (data : option MfClassicAuthContext)
    (is_nested backdoor_auth early_ret : bool) :
  let r := mf_classic_poller_auth_common instance block_num key key_type data
             is_nested backdoor_auth early_ret in
  let r0 := mf_classic_poller_auth_common instance block_num key key_type None
              is_nested backdoor_auth early_ret in
  fst (fst r0) = fst (fst r) /\ snd r0 = snd r /\ snd (fst r0) = None.
Proof.
  intros r r0. subst r r0.
  unfold mf_classic_poller_auth_common, mf_classic_poller_auth_common_block.
  rewrite !mf_classic_poller_get_nt_by_mode.
  match goal with
  | |- context [mf_classic_poller_get_nt_common ?s ?b ?k ?n ?m ?d] =>
      destruct (mf_classic_poller_get_nt_common s b k n m d) as [[ret ntw] i1]
  end.
  destruct ret; simpl; try solve [repeat split].
  destruct early_ret; simpl; try solve [repeat split].
  unfold_calls. simpl.
  destruct (poller_answers (iso14443_3a_poller i1)) as [|[e rx] rest]; simpl;
    [solve [repeat split] |].
  destruct e; simpl; repeat split.
Qed.

(** ** What the commands leave alone *)

(** X10: reading, writing, the value commands, nonce retrieval and the
    frame primitives never change the authentication state, the link-layer
    poller's state or the card data, whether they succeed or fail: a failed
    command leaves a session marked [Passed] as it is.  Only [auth_common]
    and [halt] write the authentication state. *)
Theorem mf_classic_poller_commands_keep_session
    (instance : MfClassicPoller) (block_num : Z) (block : MfClassicBlock)
    (cmd : MfClassicValueCommand) (value : Z)
    (key_type : MfClassicKeyType) (nt : option MfClassicNt)
    (is_nested backdoor_auth : bool) (tx rx : BitBuffer) (fwt_fc : Z) :
  keeps_session instance
    (snd (mf_classic_poller_read_block instance block_num block)) /\
  keeps_session instance
    (snd (mf_classic_poller_write_block instance block_num block)) /\
  keeps_session instance
    (snd (mf_classic_poller_value_cmd instance block_num cmd value)) /\
  keeps_session instance
    (snd (mf_classic_poller_value_transfer instance block_num)) /\
  keeps_session instance
    (snd (mf_classic_poller_get_nt_common instance block_num key_type nt
            is_nested backdoor_auth)) /\
  keeps_session instance
    (snd (mf_classic_poller_send_standard_frame instance tx rx fwt_fc)) /\
  keeps_session instance
    (snd (mf_classic_poller_send_custom_parity_frame instance tx rx fwt_fc)) /\
  keeps_session instance
    (snd (mf_classic_poller_send_encrypted_frame instance tx rx fwt_fc)).
Proof.
  unfold keeps_session.
  split; [| split; [| split; [| split; [| split; [| split; [| split]]]]]].
  - unfold mf_classic_poller_read_block. unfold_calls. simpl.
    repeat step; repeat split.
  - unfold mf_classic_poller_write_block. unfold_calls. simpl.
    repeat step; repeat split.
  - unfold mf_classic_poller_value_cmd. unfold_calls. simpl.
    repeat step; repeat split.
  - unfold mf_classic_poller_value_transfer. unfold_calls. simpl.
    repeat step; repeat split.
  - unfold mf_classic_poller_get_nt_common. unfold_calls. simpl.
    repeat step; repeat split.
  - unfold mf_classic_poller_send_standard_frame, link_exchange_into.
    unfold_calls. simpl. repeat step; repeat split.
  - unfold mf_classic_poller_send_custom_parity_frame, link_exchange_into.
    unfold_calls. simpl. repeat step; repeat split.
  - unfold mf_classic_poller_send_encrypted_frame. unfold_calls. simpl.
    repeat step; repeat split.
Qed.

(** ** Session teardown, twice *)

(** X11: [halt] never marks a session authenticated: an idle session stays
    idle whatever the card does.  Issued twice in a row to a card that stays
    silent, it succeeds both times, sends one encrypted frame each time and
    leaves the authentication state and the link-layer poller's state
    idle. *)
Theorem mf_classic_poller_halt_twice
    (instance : MfClassicPoller) (rx1 rx2 : BitBuffer)
    (rest : list (Iso14443_3aError * BitBuffer)) :
  answers instance
  = (Iso14443_3aErrorTimeout, rx1) :: (Iso14443_3aErrorTimeout, rx2) :: rest ->
  let r1 := mf_classic_poller_halt instance in
  let r2 := mf_classic_poller_halt (snd r1) in
  fst r1 = MfClassicErrorNone /\
  fst r2 = MfClassicErrorNone /\
  auth_state (snd r2) = MfClassicAuthStateIdle /\
  poller_state (iso14443_3a_poller (snd r2)) = Iso14443_3aPollerStateIdle /\
  length (transmissions (new_calls instance (snd r2))) = 2 /\
  answers (snd r2) = rest /\
  (forall i, auth_state i = MfClassicAuthStateIdle ->
     auth_state (snd (mf_classic_poller_halt i)) = MfClassicAuthStateIdle).
Proof.
  intros H r1 r2. subst r1 r2.
  repeat (split; [unfold mf_classic_poller_halt; unfold_calls; simpl;
                  rewrite H; simpl;
                  try (erewrite new_calls_app by log_shape); reflexivity |]).
  intros i Hi. unfold mf_classic_poller_halt. unfold_calls. simpl.
  destruct (poller_answers (iso14443_3a_poller i)) as [|[e rx] l]; simpl;
    [reflexivity | destruct e; simpl; auto].
Qed.

(** X17: [halt] goes through the cipher.  Whatever the card does, it sends
    one frame, the halt command with its checksum encrypted under the
    running cipher, and leaves the cipher in the state after that
    encryption: a successful halt resets the authentication state, not the
    cipher.  Unless the exchange times out, the link-layer poller's state is
    not written either. *)
Theorem mf_classic_poller_halt_cipher_use (instance : MfClassicPoller) :
  let command := command_frame MF_CLASSIC_CMD_HALT_MSB MF_CLASSIC_CMD_HALT_LSB in
  let r := mf_classic_poller_halt instance in
  new_calls instance (snd r) =
    [CallCrypto1Encrypt command;
     CallTxrxCustomParity (encrypted_frame (crypto instance) command)
       MF_CLASSIC_FWT_FC] /\
  crypto (snd r) = fst (cipher_encrypt (crypto instance) command) /\
  (fst r <> MfClassicErrorNone ->
     poller_state (iso14443_3a_poller (snd r))
     = poller_state (iso14443_3a_poller instance)).
Proof.
  intros command r. subst command r.
  unfold mf_classic_poller_halt, encrypted_frame, command_frame.
  unfold_calls. simpl.
  destruct (poller_answers (iso14443_3a_poller instance)) as [|[e rx] rest];
    simpl; [| destruct e; simpl];
    (split; [erewrite new_calls_app by log_shape; reflexivity |]);
    (split; [reflexivity |]);
    intros Hret; congruence.
Qed.

(** ** Value transfer *)

(** X12: [value_transfer] succeeds exactly when its one frame, the encrypted
    transfer command with its checksum, is answered without link-layer error
    by 4 bits whose first byte decrypts to the ACK value.  A link-layer
    error gives that error's category, any other answer [Protocol]. *)
Theorem mf_classic_poller_value_transfer_outcome
    (instance : MfClassicPoller) (block_num : Z)
    (e : Iso14443_3aError) (rx : BitBuffer)
    (rest : list (Iso14443_3aError * BitBuffer)) :
  answers instance = (e, rx) :: rest ->
  let command := command_frame MF_CLASSIC_CMD_VALUE_TRANSFER block_num in
  let r := mf_classic_poller_value_transfer instance block_num in
  (fst r = MfClassicErrorNone <->
     e = Iso14443_3aErrorNone /\ bit_buffer_get_size rx = 4 /\
     bit_buffer_get_byte (decrypted_answer (crypto instance) command rx) 0
     = MF_CLASSIC_CMD_ACK) /\
  (e <> Iso14443_3aErrorNone -> fst r = mf_classic_process_error e) /\
  (e = Iso14443_3aErrorNone ->
     bit_buffer_get_size rx <> 4 \/
     bit_buffer_get_byte (decrypted_answer (crypto instance) command rx) 0
     <> MF_CLASSIC_CMD_ACK ->
     fst r = MfClassicErrorProtocol) /\
  transmissions (new_calls instance (snd r)) =
    [CallTxrxCustomParity (encrypted_frame (crypto instance) command)
       MF_CLASSIC_FWT_FC].
Proof.
  intros H command r. subst command r.
  unfold mf_classic_poller_value_transfer, decrypted_answer, encrypted_frame,
    command_frame.
  unfold_calls. simpl. rewrite H.
  destruct e; simpl;
    try solve [settle; erewrite new_calls_app by log_shape; reflexivity].
  destruct (bit_buffer_get_size rx =? 4) eqn:Hsize; simpl;
    [apply Nat.eqb_eq in Hsize | apply Nat.eqb_neq in Hsize];
    [| solve [settle; erewrite new_calls_app by log_shape; reflexivity]].
  match goal with
  | |- context [negb (?a =? ?b)%Z] => destruct (a =? b)%Z eqn:Hack
  end; simpl;
    [apply Z.eqb_eq in Hack | apply Z.eqb_neq in Hack];
    settle; erewrite new_calls_app by log_shape; reflexivity.
Qed.

(** ** Value commands, from the first frame on *)

(** The run of [value_cmd] when two answers are scheduled: the three states
    in which it can stop, with the calls logged up to each, and its result
    as a decision on the two answers. *)
Lemma mf_classic_poller_value_cmd_run
    (instance : MfClassicPoller) (block_num : Z) (cmd : MfClassicValueCommand)
    (data : Z)
    (e1 : Iso14443_3aError) (rx1 : BitBuffer)
    (e2 : Iso14443_3aError) (rx2 : BitBuffer)
    (rest : list (Iso14443_3aError * BitBuffer)) :
  answers instance = (e1, rx1) :: (e2, rx2) :: rest ->
  let command := command_frame (value_cmd_opcode cmd) block_num in
  let operand := crc_append (bit_buffer_copy_bytes (int32_object_bytes data) 4) in
  let c1 := cipher_after_answer (crypto instance) command rx1 in
  let sent1 :=
    CallTxrxCustomParity (encrypted_frame (crypto instance) command)
      MF_CLASSIC_FWT_FC in
  let sent2 := CallTxrxCustomParity (encrypted_frame c1 operand) MF_CLASSIC_FWT_FC in
  exists i1 i1' i2,
    new_calls instance i1 = [CallCrypto1Encrypt command; sent1] /\
    new_calls instance i1' =
      [CallCrypto1Encrypt command; sent1; CallCrypto1Decrypt rx1] /\
    new_calls instance i2 =
      [CallCrypto1Encrypt command; sent1; CallCrypto1Decrypt rx1;
       CallCrypto1Encrypt operand; sent2] /\
    mf_classic_poller_value_cmd instance block_num cmd data =
    match e1 with
    | Iso14443_3aErrorNone =>
        if negb (bit_buffer_get_size rx1 =? 4) then (MfClassicErrorProtocol, i1)
        else if negb (bit_buffer_get_byte
                        (decrypted_answer (crypto instance) command rx1) 0
                      =? MF_CLASSIC_CMD_ACK)%Z
        then (MfClassicErrorProtocol, i1')
        else
          match e2 with
          | Iso14443_3aErrorTimeout => (MfClassicErrorNone, i2)
          | _ => (MfClassicErrorProtocol, i2)
          end
    | _ => (mf_classic_process_error e1, i1)
    end.
Proof.
  intros H command operand c1 sent1 sent2.
  destruct (command_exchange instance
              (bit_buffer_copy_bytes [value_cmd_opcode cmd; block_num] 2))
    as (e & i1 & Hx1 & Hcalls1 & Hcrypto1 & _ & Hans1).
  rewrite H in Hans1. destruct Hans1 as (-> & Hrx1 & Hrest1).
  fold command in Hcalls1, Hcrypto1. fold sent1 in Hcalls1.
  destruct (command_exchange (crypto1_decrypt RxEncrypted RxPlain i1)
              (bit_buffer_copy_bytes (int32_object_bytes data) 4))
    as (e & i2 & Hx2 & Hcalls2 & Hcrypto2 & _ & Hans2).
  unfold answers in Hans2, Hrest1. simpl in Hans2. rewrite Hrest1 in Hans2.
  destruct Hans2 as (-> & Hrx2 & _).
  simpl in Hcalls2, Hcrypto2. rewrite Hrx1, Hcrypto1 in Hcalls2, Hcrypto2.
  fold operand in Hcalls2, Hcrypto2.
  change (fst (cipher_decrypt (fst (cipher_encrypt (crypto instance) command)) rx1))
    with c1 in Hcalls2, Hcrypto2.
  fold sent2 in Hcalls2.
  assert (Hplain1 : rx_plain_buffer (crypto1_decrypt RxEncrypted RxPlain i1)
                    = decrypted_answer (crypto instance) command rx1).
  { simpl. rewrite Hrx1, Hcrypto1. reflexivity. }
  exists i1, (crypto1_decrypt RxEncrypted RxPlain i1), i2.
  split; [apply new_calls_app; exact Hcalls1 |].
  split; [apply new_calls_app; simpl;
          rewrite Hcalls1, Hrx1, <- app_assoc; reflexivity |].
  split; [apply new_calls_app; rewrite Hcalls2; simpl;
          rewrite Hcalls1, <- !app_assoc; reflexivity |].
  unfold mf_classic_poller_value_cmd. cbv zeta.
  rewrite Hx1.
  destruct e1; try reflexivity.
  change (buffer RxEncrypted i1) with (rx_encrypted_buffer i1).
  rewrite Hrx1.
  destruct (negb (bit_buffer_get_size rx1 =? 4)); [reflexivity |].
  change (buffer RxPlain (crypto1_decrypt RxEncrypted RxPlain i1))
    with (rx_plain_buffer (crypto1_decrypt RxEncrypted RxPlain i1)).
  rewrite Hplain1.
  destruct (negb (bit_buffer_get_byte
                    (decrypted_answer (crypto instance) command rx1) 0
                  =? MF_CLASSIC_CMD_ACK)%Z); [reflexivity |].
  rewrite Hx2.
  destruct e2; reflexivity.
Qed.

(** X13: a value command as a whole.  It succeeds exactly when its command
    frame is acknowledged (no link-layer error, 4 bits, first byte decrypting
    to the ACK value) and the frame carrying the operand is then met with a
    timeout.  The operand, the four bytes of the integer with their checksum,
    is encrypted and sent only after that acknowledgement; without it one
    frame is sent, and the result is the category of the link-layer error or
    [Protocol]. *)
Theorem mf_classic_poller_value_cmd_outcome
    (instance : MfClassicPoller) (block_num : Z) (cmd : MfClassicValueCommand)
    (data : Z)
    (e1 : Iso14443_3aError) (rx1 : BitBuffer)
    (e2 : Iso14443_3aError) (rx2 : BitBuffer)
    (rest : list (Iso14443_3aError * BitBuffer)) :
  answers instance = (e1, rx1) :: (e2, rx2) :: rest ->
  let command := command_frame (value_cmd_opcode cmd) block_num in
  let operand := crc_append (bit_buffer_copy_bytes (int32_object_bytes data) 4) in
  let c1 := cipher_after_answer (crypto instance) command rx1 in
  let ack1 :=
    e1 = Iso14443_3aErrorNone /\ bit_buffer_get_size rx1 = 4 /\
    bit_buffer_get_byte (decrypted_answer (crypto instance) command rx1) 0
    = MF_CLASSIC_CMD_ACK in
  let sent1 :=
    CallTxrxCustomParity (encrypted_frame (crypto instance) command)
      MF_CLASSIC_FWT_FC in
  let sent2 := CallTxrxCustomParity (encrypted_frame c1 operand) MF_CLASSIC_FWT_FC in
  let r := mf_classic_poller_value_cmd instance block_num cmd data in
  (fst r = MfClassicErrorNone <-> ack1 /\ e2 = Iso14443_3aErrorTimeout) /\
  (ack1 -> transmissions (new_calls instance (snd r)) = [sent1; sent2]) /\
  (~ ack1 -> transmissions (new_calls instance (snd r)) = [sent1]) /\
  (e1 <> Iso14443_3aErrorNone -> fst r = mf_classic_process_error e1) /\
  (e1 = Iso14443_3aErrorNone -> ~ ack1 -> fst r = MfClassicErrorProtocol).
Proof.
  intros H command operand c1 ack1 sent1 sent2 r.
  destruct (mf_classic_poller_value_cmd_run instance block_num cmd data H)
    as (i1 & i1' & i2 & Hl1 & Hl1' & Hl2 & Hrun).
  fold command operand c1 sent1 sent2 in Hl1, Hl1', Hl2, Hrun.
  assert (Hr : r = mf_classic_poller_value_cmd instance block_num cmd data)
    by reflexivity.
  clearbody r. rewrite Hrun in Hr. clear Hrun.
  subst ack1.
  destruct e1;
    try solve [subst r; cbn [fst snd mf_classic_process_error];
               rewrite Hl1; settle; refute].
  destruct (bit_buffer_get_size rx1 =? 4) eqn:Hs1;
    [apply Nat.eqb_eq in Hs1 | apply Nat.eqb_neq in Hs1]; cbn [negb] in Hr;
    [| solve [subst r; cbn [fst snd]; rewrite Hl1; settle; refute]].
  destruct (bit_buffer_get_byte (decrypted_answer (crypto instance) command rx1) 0
            =? MF_CLASSIC_CMD_ACK)%Z eqn:Hb1;
    [apply Z.eqb_eq in Hb1 | apply Z.eqb_neq in Hb1]; cbn [negb] in Hr;
    [| solve [subst r; cbn [fst snd]; rewrite Hl1'; settle; refute]].
  destruct e2; subst r; cbn [fst snd]; rewrite Hl2; settle; refute.
Qed.

(** ** Block read: what goes through the cipher *)

(** X14: [read_block] sends exactly one frame, the encrypted read command
    with its checksum, and so moves the cipher forward even when the read
    fails.  It decrypts the response only when the exchange reported no
    error and the response has the expected 18 bytes; otherwise the
    plaintext receive buffer is left as it was. *)
Theorem mf_classic_poller_read_block_cipher_use
    (instance : MfClassicPoller) (block_num : Z) (data : MfClassicBlock)
    (e : Iso14443_3aError) (rx : BitBuffer)
    (rest : list (Iso14443_3aError * BitBuffer)) :
  answers instance = (e, rx) :: rest ->
  let command := command_frame MF_CLASSIC_CMD_READ_BLOCK block_num in
  let sent :=
    CallTxrxCustomParity (encrypted_frame (crypto instance) command)
      MF_CLASSIC_FWT_FC in
  let r := mf_classic_poller_read_block instance block_num data in
  transmissions (new_calls instance (snd r)) = [sent] /\
  (e = Iso14443_3aErrorNone -> bit_buffer_get_size_bytes rx = 18 ->
     new_calls instance (snd r)
     = [CallCrypto1Encrypt command; sent; CallCrypto1Decrypt rx] /\
     crypto (snd r) = cipher_after_answer (crypto instance) command rx) /\
  (e <> Iso14443_3aErrorNone \/ bit_buffer_get_size_bytes rx <> 18 ->
     new_calls instance (snd r) = [CallCrypto1Encrypt command; sent] /\
     crypto (snd r) = fst (cipher_encrypt (crypto instance) command) /\
     rx_plain_buffer (snd r) = rx_plain_buffer instance).
Proof.
  intros H command sent r. subst command sent r.
  unfold mf_classic_poller_read_block, cipher_after_answer, encrypted_frame,
    command_frame.
  unfold_calls. simpl. rewrite H.
  destruct e; simpl;
    try solve [settle; erewrite new_calls_app by log_shape; reflexivity].
  unfold sizeof_MfClassicBlock. simpl (16 + 2).
  destruct (bit_buffer_get_size_bytes rx =? 18) eqn:Hsize; simpl;
    [apply Nat.eqb_eq in Hsize | apply Nat.eqb_neq in Hsize];
    [| solve [settle; erewrite new_calls_app by log_shape; reflexivity]].
  destruct (crc_check (snd (cipher_decrypt _ rx))); simpl;
    settle; erewrite new_calls_app by log_shape; reflexivity.
Qed.

(** ** Frame primitives *)

(** X15: [send_encrypted_frame] encrypts the caller's frame as it stands
    (no checksum is added) and sends it.  It succeeds exactly when the
    exchange reports no error, and then hands back the decryption of what
    was received; on a link-layer error it returns that error's category and
    the caller's receive buffer is not written, though the cipher has moved
    over the frame that was sent.  The plaintext buffers of the poller are
    not used. *)
Theorem mf_classic_poller_send_encrypted_frame_outcome
    (instance : MfClassicPoller) (tx rx : BitBuffer) (fwt_fc : Z)
    (e : Iso14443_3aError) (received : BitBuffer)
    (rest : list (Iso14443_3aError * BitBuffer)) :
  answers instance = (e, received) :: rest ->
  let r := mf_classic_poller_send_encrypted_frame instance tx rx fwt_fc in
  (fst (fst r) = MfClassicErrorNone <-> e = Iso14443_3aErrorNone) /\
  (e = Iso14443_3aErrorNone ->
     snd (fst r) = decrypted_answer (crypto instance) tx received /\
     crypto (snd r) = cipher_after_answer (crypto instance) tx received) /\
  (e <> Iso14443_3aErrorNone ->
     fst (fst r) = mf_classic_process_error e /\
     snd (fst r) = rx /\
     crypto (snd r) = fst (cipher_encrypt (crypto instance) tx)) /\
  transmissions (new_calls instance (snd r)) =
    [CallTxrxCustomParity (encrypted_frame (crypto instance) tx) fwt_fc] /\
  tx_plain_buffer (snd r) = tx_plain_buffer instance /\
  rx_plain_buffer (snd r) = rx_plain_buffer instance.
Proof.
  intros H r. subst r.
  unfold mf_classic_poller_send_encrypted_frame, decrypted_answer,
    cipher_after_answer, encrypted_frame.
  unfold_calls. simpl. rewrite H.
  destruct e; simpl; settle; erewrite new_calls_app by log_shape; reflexivity.
Qed.

(** X16: the two plain frame primitives are pass-throughs.  Each does one
    exchange with the caller's frame as it stands, returns the category of
    the link layer's error (success exactly when there is none) and hands
    back what the link layer received; the cipher and the four buffers of
    the poller are not touched. *)
Theorem mf_classic_poller_send_plain_frames
    (instance : MfClassicPoller) (tx rx : BitBuffer) (fwt_fc : Z)
    (e : Iso14443_3aError) (received : BitBuffer)
    (rest : list (Iso14443_3aError * BitBuffer)) :
  answers instance = (e, received) :: rest ->
  let s := mf_classic_poller_send_standard_frame instance tx rx fwt_fc in
  let p := mf_classic_poller_send_custom_parity_frame instance tx rx fwt_fc in
  (fst (fst s) = mf_classic_process_error e /\
   (fst (fst s) = MfClassicErrorNone <-> e = Iso14443_3aErrorNone) /\
   snd (fst s) = received /\
   new_calls instance (snd s) = [CallSendStandardFrame tx fwt_fc] /\
   crypto (snd s) = crypto instance /\
   (forall b, buffer b (snd s) = buffer b instance)) /\
  (fst (fst p) = mf_classic_process_error e /\
   (fst (fst p) = MfClassicErrorNone <-> e = Iso14443_3aErrorNone) /\
   snd (fst p) = received /\
   new_calls instance (snd p) = [CallTxrxCustomParity tx fwt_fc] /\
   crypto (snd p) = crypto instance /\
   (forall b, buffer b (snd p) = buffer b instance)).
Proof.
  intros H s p. subst s p.
  unfold mf_classic_poller_send_standard_frame,
    mf_classic_poller_send_custom_parity_frame, link_exchange_into.
  unfold_calls. simpl. rewrite H. simpl.
  destruct e; simpl; settle;
    try (erewrite new_calls_app by log_shape; reflexivity);
    match goal with b : Buffer |- _ => destruct b; reflexivity end.
Qed.

End Properties.

(** * The simulated session at work

    The statements above, applied to runs of the simulated card, and runs
    that show where the code departs from a property one might expect. *)

(** ** Nonce retrieval *)

(** A 4-byte answer with a checksum failure is the tag nonce. *)
Lemma mf_classic_poller_get_nt_outcome_witness :
  let r :=
    mf_classic_poller_get_nt
      (sim_poller MfClassicAuthStateIdle
         [(Iso14443_3aErrorWrongCrc, frame [0x01; 0x02; 0x03; 0x04]%Z)])
      5 MfClassicKeyTypeA (Some (zeroed 4)) false in
  fst (fst r) = MfClassicErrorNone /\
  snd (fst r) = Some [0x01; 0x02; 0x03; 0x04]%Z.
Proof.
  intros r.
  destruct (mf_classic_poller_get_nt_outcome
              (sim_poller MfClassicAuthStateIdle
                 [(Iso14443_3aErrorWrongCrc, frame [0x01; 0x02; 0x03; 0x04]%Z)])
              5 MfClassicKeyTypeA (Some (zeroed 4)) false eq_refl)
    as (Hok & _).
  destruct (Hok eq_refl eq_refl) as (Hret & _ & Hnt).
  split; [exact Hret |].
  exact (Hnt (zeroed 4) eq_refl eq_refl eq_refl).
Defined.

(** C1, counterexample: the nonce request times out.  The operation returns
    [Timeout], which is not [Protocol]. *)
Lemma mf_classic_poller_get_nt_timeout_is_not_protocol :
  let r :=
    mf_classic_poller_get_nt
      (sim_poller MfClassicAuthStateIdle
         [(Iso14443_3aErrorTimeout, bit_buffer_empty)])
      5 MfClassicKeyTypeA (Some (zeroed 4)) false in
  fst (fst r) = MfClassicErrorTimeout /\
  fst (fst r) <> MfClassicErrorProtocol.
Proof. simpl. split; [reflexivity | discriminate]. Qed.

(** The nonce request is answered with a frame whose checksum is valid: the
    link layer reports no error, and the operation returns no error either,
    without writing the nonce. *)
Example mf_classic_poller_get_nt_clean_answer :
  let r :=
    mf_classic_poller_get_nt
      (sim_poller MfClassicAuthStateIdle
         [(Iso14443_3aErrorNone, frame [0x01; 0x02]%Z)])
      5 MfClassicKeyTypeA (Some (zeroed 4)) false in
  fst (fst r) = MfClassicErrorNone /\ snd (fst r) = Some (zeroed 4).
Proof. simpl. split; reflexivity. Qed.

(** ** Session teardown *)

(** The card stays silent: the session is torn down. *)
Lemma mf_classic_poller_halt_outcome_witness :
  let r :=
    mf_classic_poller_halt
      (sim_poller MfClassicAuthStatePassed
         [(Iso14443_3aErrorTimeout, bit_buffer_empty)]) in
  fst r = MfClassicErrorNone /\
  auth_state (snd r) = MfClassicAuthStateIdle /\
  poller_state (iso14443_3a_poller (snd r)) = Iso14443_3aPollerStateIdle.
Proof.
  intros r.
  destruct (mf_classic_poller_halt_outcome
              (sim_poller MfClassicAuthStatePassed
                 [(Iso14443_3aErrorTimeout, bit_buffer_empty)]) eq_refl)
    as (Hsilent & _).
  exact (Hsilent eq_refl).
Defined.

(** C2, counterexample: the card has left the field when the halt frame is
    sent.  The operation returns [NotPresent], which is not [Protocol]. *)
Lemma mf_classic_poller_halt_not_present_is_not_protocol :
  let r :=
    mf_classic_poller_halt
      (sim_poller MfClassicAuthStatePassed
         [(Iso14443_3aErrorNotPresent, bit_buffer_empty)]) in
  fst r = MfClassicErrorNotPresent /\
  fst r <> MfClassicErrorProtocol.
Proof. simpl. split; [reflexivity | discriminate]. Qed.

(** The card answers the halt frame and the link layer reports no error: the
    operation returns no error either, and the session stays authenticated. *)
Example mf_classic_poller_halt_answered :
  let r :=
    mf_classic_poller_halt
      (sim_poller MfClassicAuthStatePassed
         [(Iso14443_3aErrorNone, nibble_frame 0x04)]) in
  fst r = MfClassicErrorNone /\
  auth_state (snd r) = MfClassicAuthStatePassed.
Proof. simpl. split; reflexivity. Qed.

(** ** Authentication *)

(** C3, at the failing input: the nonce is retrieved and the card answers the
    reader frame with a single byte.  [auth] returns the authentication error
    and leaves the authentication state at [Passed]. *)
Theorem mf_classic_poller_auth_error_leaves_passed :
  let r :=
    mf_classic_poller_auth
      (sim_poller MfClassicAuthStateIdle
         [(Iso14443_3aErrorWrongCrc, frame [0x01; 0x02; 0x03; 0x04]%Z);
          (Iso14443_3aErrorNone, frame [0x09]%Z)])
      5 [0xFF; 0xFF; 0xFF; 0xFF; 0xFF; 0xFF]%Z MfClassicKeyTypeA None false in
  fst (fst r) = MfClassicErrorAuth /\
  auth_state (snd r) = MfClassicAuthStatePassed.
Proof. simpl. split; reflexivity. Qed.

(** The same run, through the general statement. *)
Lemma mf_classic_poller_auth_common_short_tag_response_witness :
  let r :=
    mf_classic_poller_auth_common
      (sim_poller MfClassicAuthStateIdle
         [(Iso14443_3aErrorWrongCrc, frame [0x01; 0x02; 0x03; 0x04]%Z);
          (Iso14443_3aErrorNone, frame [0x09]%Z)])
      5 [0xFF; 0xFF; 0xFF; 0xFF; 0xFF; 0xFF]%Z MfClassicKeyTypeA None
      false false false in
  fst (fst r) = MfClassicErrorAuth /\
  auth_state (snd r) = MfClassicAuthStatePassed /\
  word_calls
    (new_calls
       (sim_poller MfClassicAuthStateIdle
          [(Iso14443_3aErrorWrongCrc, frame [0x01; 0x02; 0x03; 0x04]%Z);
           (Iso14443_3aErrorNone, frame [0x09]%Z)])
       (snd r)) = 1.
Proof.
  intros r.
  assert (Hshort : bit_buffer_get_size_bytes (frame [0x09]%Z) <> 4)
    by (vm_compute; lia).
  destruct (mf_classic_poller_auth_common_short_tag_response
              (sim_poller MfClassicAuthStateIdle
                 [(Iso14443_3aErrorWrongCrc, frame [0x01; 0x02; 0x03; 0x04]%Z);
                  (Iso14443_3aErrorNone, frame [0x09]%Z)])
              5 [0xFF; 0xFF; 0xFF; 0xFF; 0xFF; 0xFF]%Z MfClassicKeyTypeA None
              false false eq_refl eq_refl eq_refl
              Hshort)
    as (Hret & Hst & Hw & _).
  repeat split; assumption.
Defined.

(** Nested authentication asked for the nonce only. *)
Lemma mf_classic_poller_auth_common_early_return_witness :
  let i :=
    sim_poller MfClassicAuthStatePassed
      [(Iso14443_3aErrorNone, frame [0x01; 0x02; 0x03; 0x04]%Z)] in
  let d :=
    {| ctx_nt := zeroed 4; ctx_nr := [0x0A; 0x0B; 0x0C; 0x0D]%Z;
       ctx_ar := zeroed 4; ctx_at := zeroed 4 |} in
  let r :=
    mf_classic_poller_auth_common i 5 [0xFF; 0xFF; 0xFF; 0xFF; 0xFF; 0xFF]%Z
      MfClassicKeyTypeB (Some d) true false true in
  fst (fst r) = MfClassicErrorNone /\
  length (transmissions (new_calls i (snd r))) = 1 /\
  word_calls (new_calls i (snd r)) = 0 /\
  auth_state (snd r) = MfClassicAuthStatePassed /\
  snd (fst r) =
    Some {| ctx_nt := [0x01; 0x02; 0x03; 0x04]%Z;
            ctx_nr := [0x0A; 0x0B; 0x0C; 0x0D]%Z;
            ctx_ar := zeroed 4; ctx_at := zeroed 4 |}.
Proof.
  intros i d r.
  destruct (mf_classic_poller_auth_common_early_return i 5
              [0xFF; 0xFF; 0xFF; 0xFF; 0xFF; 0xFF]%Z MfClassicKeyTypeB (Some d)
              true false eq_refl)
    as (Hret & _ & Htx & _ & Hw & _ & _ & Hst & Hctx).
  destruct (Hctx [0x01; 0x02; 0x03; 0x04]%Z eq_refl) as (Hd & _).
  repeat split; assumption.
Defined.

(** A request for block 5 that times out, on a session that is
    authenticated: one call of the link layer's halt, and the session is
    still marked authenticated. *)
Lemma mf_classic_poller_auth_common_halt_witness :
  let i :=
    sim_poller MfClassicAuthStatePassed
      [(Iso14443_3aErrorTimeout, bit_buffer_empty)] in
  let r :=
    mf_classic_poller_auth_common i 5 [0xFF; 0xFF; 0xFF; 0xFF; 0xFF; 0xFF]%Z
      MfClassicKeyTypeA None false false false in
  fst (fst r) = MfClassicErrorTimeout /\
  halt_calls (new_calls i (snd r)) = 1 /\
  auth_state (snd r) = MfClassicAuthStatePassed.
Proof.
  intros i r.
  destruct (mf_classic_poller_auth_common_halt i 5
              [0xFF; 0xFF; 0xFF; 0xFF; 0xFF; 0xFF]%Z MfClassicKeyTypeA None
              false false false)
    as (Hhalt & _ & _ & Hst & _).
  repeat split; assumption.
Defined.

(** C7, counterexample: an authentication that fails because the nonce
    request times out, on a session that is authenticated.  The code sends
    one frame, the nonce request, and leaves the session marked
    authenticated; had it issued the session teardown's halt, the encrypted
    halt frame would have been sent as well and, the card being silent, the
    authentication state would be [Idle]. *)
Lemma mf_classic_poller_auth_failure_is_not_session_teardown :
  let i :=
    sim_poller MfClassicAuthStatePassed
      [(Iso14443_3aErrorTimeout, bit_buffer_empty);
       (Iso14443_3aErrorTimeout, bit_buffer_empty)] in
  let code :=
    mf_classic_poller_auth_common i 5 [0xFF; 0xFF; 0xFF; 0xFF; 0xFF; 0xFF]%Z
      MfClassicKeyTypeA None false false false in
  let specified :=
    auth_common_with_session_teardown i 5 [0xFF; 0xFF; 0xFF; 0xFF; 0xFF; 0xFF]%Z
      MfClassicKeyTypeA None false false false in
  fst (fst code) = MfClassicErrorTimeout /\
  transmissions (calls (snd code)) =
    [CallSendStandardFrame (frame [0x60; 5]%Z) 60000] /\
  auth_state (snd code) = MfClassicAuthStatePassed /\
  transmissions (calls (snd specified)) =
    [CallSendStandardFrame (frame [0x60; 5]%Z) 60000;
     CallTxrxCustomParity (sim_crc_append (frame [0x50; 0x00]%Z)) 60000] /\
  auth_state (snd specified) = MfClassicAuthStateIdle /\
  code <> specified.
Proof.
  simpl. repeat split. intros H. discriminate H.
Qed.

(** ** Block read and write *)

(** A block read back from the simulated card. *)
Lemma mf_classic_poller_read_block_outcome_witness :
  let block := [0xDE; 0xAD; 0xBE; 0xEF; 4; 5; 6; 7; 8; 9; 10; 11; 12; 13; 14; 15]%Z in
  let r :=
    mf_classic_poller_read_block
      (sim_poller MfClassicAuthStatePassed
         [(Iso14443_3aErrorNone, sim_crc_append (frame block))])
      5 (zeroed 16) in
  fst (fst r) = MfClassicErrorNone /\ snd (fst r) = block.
Proof.
  intros block r.
  destruct (mf_classic_poller_read_block_outcome
              (sim_poller MfClassicAuthStatePassed
                 [(Iso14443_3aErrorNone, sim_crc_append (frame block))])
              5 (zeroed 16) eq_refl)
    as (Hiff & Hdata & _).
  assert (Hret : fst (fst r) = MfClassicErrorNone)
    by (apply Hiff; repeat split; reflexivity).
  split; [exact Hret |].
  destruct (Hdata Hret) as (_ & Hwhole).
  exact (Hwhole eq_refl eq_refl).
Defined.

(** A block written to the simulated card, which acknowledges twice. *)
Lemma mf_classic_poller_write_block_outcome_witness :
  let i :=
    sim_poller MfClassicAuthStatePassed
      [(Iso14443_3aErrorNone, nibble_frame 0x0A);
       (Iso14443_3aErrorNone, nibble_frame 0x0A)] in
  let r := mf_classic_poller_write_block i 5 (zeroed 16) in
  fst r = MfClassicErrorNone /\
  length (transmissions (new_calls i (snd r))) = 2.
Proof.
  intros i r.
  destruct (mf_classic_poller_write_block_outcome i 5 (zeroed 16) eq_refl)
    as (Hiff & Hsent & _).
  split.
  - apply Hiff. repeat split; reflexivity.
  - unfold r. rewrite Hsent by (repeat split; reflexivity). reflexivity.
Defined.

(** C8, counterexample: the card acknowledges with frames of 4 bytes whose
    first byte is the ACK value, and the write is rejected after the first
    of them; with acknowledgements of 4 bits, which are not 4 bytes long,
    the write succeeds. *)
Lemma mf_classic_poller_write_block_four_byte_acknowledgement :
  let four_bytes := frame [0x0A; 0x00; 0x00; 0x00]%Z in
  let four_bits := nibble_frame 0x0A in
  let rejected :=
    mf_classic_poller_write_block
      (sim_poller MfClassicAuthStatePassed
         [(Iso14443_3aErrorNone, four_bytes); (Iso14443_3aErrorNone, four_bytes)])
      5 (zeroed 16) in
  let accepted :=
    mf_classic_poller_write_block
      (sim_poller MfClassicAuthStatePassed
         [(Iso14443_3aErrorNone, four_bits); (Iso14443_3aErrorNone, four_bits)])
      5 (zeroed 16) in
  bit_buffer_get_size_bytes four_bytes = 4 /\
  bit_buffer_get_byte four_bytes 0 = MF_CLASSIC_CMD_ACK /\
  fst rejected = MfClassicErrorProtocol /\
  length (transmissions (calls (snd rejected))) = 1 /\
  bit_buffer_get_size_bytes four_bits = 1 /\
  fst accepted = MfClassicErrorNone.
Proof. simpl. repeat split. Qed.

(** ** Value commands *)

(** An increment by 5: acknowledged, then silence. *)
Lemma mf_classic_poller_value_cmd_second_frame_witness :
  let r :=
    mf_classic_poller_value_cmd
      (sim_poller MfClassicAuthStatePassed
         [(Iso14443_3aErrorNone, nibble_frame 0x0A);
          (Iso14443_3aErrorTimeout, bit_buffer_empty)])
      5 MfClassicValueCommandIncrement 5 in
  fst r = MfClassicErrorNone.
Proof.
  intros r.
  assert (Hack : bit_buffer_get_byte
                   (decrypted_answer 0
                      (command_frame (value_cmd_opcode MfClassicValueCommandIncrement) 5)
                      (nibble_frame 0x0A)) 0 = MF_CLASSIC_CMD_ACK)
    by (vm_compute; reflexivity).
  destruct (mf_classic_poller_value_cmd_second_frame
              (sim_poller MfClassicAuthStatePassed
                 [(Iso14443_3aErrorNone, nibble_frame 0x0A);
                  (Iso14443_3aErrorTimeout, bit_buffer_empty)])
              5 MfClassicValueCommandIncrement 5 eq_refl eq_refl Hack)
    as (Hiff & _).
  apply Hiff. reflexivity.
Defined.

(** A command value outside the enumeration is sent as a restore. *)
Lemma mf_classic_poller_value_cmd_defaults_to_restore_witness :
  let i :=
    sim_poller MfClassicAuthStatePassed
      [(Iso14443_3aErrorNone, nibble_frame 0x0A)] in
  hd_error
    (transmissions
       (new_calls i
          (snd (mf_classic_poller_value_cmd i 5 (MfClassicValueCommandRaw 7) 1))))
  = Some (CallTxrxCustomParity (sim_crc_append (frame [0xC2; 5]%Z)) 60000).
Proof.
  intros i.
  assert (Hinc : MfClassicValueCommandRaw 7 <> MfClassicValueCommandIncrement)
    by discriminate.
  assert (Hdec : MfClassicValueCommandRaw 7 <> MfClassicValueCommandDecrement)
    by discriminate.
  exact (proj2 (mf_classic_poller_value_cmd_defaults_to_restore i 5 1 Hinc Hdec)).
Defined.

(** * Further runs of the simulated session *)

(** A nested nonce request answered by four bytes. *)
Lemma mf_classic_poller_get_nt_nested_outcome_witness :
  let i :=
    sim_poller MfClassicAuthStatePassed
      [(Iso14443_3aErrorNone, frame [0x11; 0x22; 0x33; 0x44]%Z)] in
  let r := mf_classic_poller_get_nt_nested i 8 MfClassicKeyTypeB (Some (zeroed 4))
             false in
  fst (fst r) = MfClassicErrorNone /\
  snd (fst r) = Some [0x11; 0x22; 0x33; 0x44]%Z /\
  length (new_calls i (snd r)) = 2.
Proof.
  intros i r.
  destruct (mf_classic_poller_get_nt_nested_outcome i 8 MfClassicKeyTypeB
              (Some (zeroed 4)) false eq_refl)
    as (Hiff & Hnt & _ & _ & _ & Hcalls & _).
  assert (Hret : fst (fst r) = MfClassicErrorNone)
    by (apply Hiff; split; reflexivity).
  split; [exact Hret |].
  split; [exact (Hnt Hret) |].
  unfold r. rewrite Hcalls. reflexivity.
Defined.

(** A handshake with the simulated card, transcript requested. *)
Lemma mf_classic_poller_auth_common_handshake_witness :
  let i :=
    sim_poller MfClassicAuthStateIdle
      [(Iso14443_3aErrorWrongCrc, frame [0x01; 0x02; 0x03; 0x04]%Z);
       (Iso14443_3aErrorNone, frame [0x0A; 0x0B; 0x0C; 0x0D]%Z)] in
  let d :=
    {| ctx_nt := zeroed 4; ctx_nr := zeroed 4; ctx_ar := zeroed 4;
       ctx_at := zeroed 4 |} in
  let r :=
    mf_classic_poller_auth_common i 5 [0xFF; 0xFF; 0xFF; 0xFF; 0xFF; 0xFF]%Z
      MfClassicKeyTypeA (Some d) false false false in
  fst (fst r) = MfClassicErrorNone /\
  auth_state (snd r) = MfClassicAuthStatePassed /\
  snd (fst r) =
    Some {| ctx_nt := [0x01; 0x02; 0x03; 0x04]%Z;
            ctx_nr := [0xA0; 0xA1; 0xA2; 0xA3]%Z;
            ctx_ar := [0x01; 0x02; 0x03; 0x04]%Z;
            ctx_at := [0x0A; 0x0B; 0x0C; 0x0D]%Z |}.
Proof.
  intros i d r.
  destruct (mf_classic_poller_auth_common_handshake i 5
              [0xFF; 0xFF; 0xFF; 0xFF; 0xFF; 0xFF]%Z MfClassicKeyTypeA (Some d)
              false false eq_refl eq_refl eq_refl eq_refl)
    as (Hret & Hst & _ & _ & _ & _ & _ & _ & _ & Hctx).
  split; [exact Hret |].
  split; [exact Hst |].
  unfold r. rewrite (Hctx d eq_refl). reflexivity.
Defined.

(** The card leaves the field after giving its nonce. *)
Lemma mf_classic_poller_auth_common_reader_frame_error_witness :
  let i :=
    sim_poller MfClassicAuthStateIdle
      [(Iso14443_3aErrorWrongCrc, frame [0x01; 0x02; 0x03; 0x04]%Z);
       (Iso14443_3aErrorNotPresent, bit_buffer_empty)] in
  let r :=
    mf_classic_poller_auth_common i 5 [0xFF; 0xFF; 0xFF; 0xFF; 0xFF; 0xFF]%Z
      MfClassicKeyTypeA None false false false in
  fst (fst r) = MfClassicErrorNotPresent /\
  auth_state (snd r) = MfClassicAuthStateIdle /\
  halt_calls (new_calls i (snd r)) = 1.
Proof.
  intros i r.
  assert (He2 : Iso14443_3aErrorNotPresent <> Iso14443_3aErrorNone)
    by discriminate.
  destruct (mf_classic_poller_auth_common_reader_frame_error i 5
              [0xFF; 0xFF; 0xFF; 0xFF; 0xFF; 0xFF]%Z MfClassicKeyTypeA None
              false false eq_refl eq_refl eq_refl He2)
    as (Hret & _ & Hst & _ & Hhalt & _).
  repeat split; assumption.
Defined.

(** No card answers the nonce request. *)
Lemma mf_classic_poller_auth_common_nonce_failure_witness :
  let i :=
    sim_poller MfClassicAuthStateIdle
      [(Iso14443_3aErrorTimeout, bit_buffer_empty)] in
  let d :=
    {| ctx_nt := [0x09; 0x09; 0x09; 0x09]%Z; ctx_nr := zeroed 4;
       ctx_ar := zeroed 4; ctx_at := zeroed 4 |} in
  let r :=
    mf_classic_poller_auth_common i 5 [0xFF; 0xFF; 0xFF; 0xFF; 0xFF; 0xFF]%Z
      MfClassicKeyTypeA (Some d) false false false in
  fst (fst r) = MfClassicErrorTimeout /\
  snd (fst r) = Some d /\
  rng (snd r) = rng i.
Proof.
  intros i d r.
  assert (Hfail : MfClassicErrorTimeout <> MfClassicErrorNone) by discriminate.
  destruct (mf_classic_poller_auth_common_nonce_failure i 5
              [0xFF; 0xFF; 0xFF; 0xFF; 0xFF; 0xFF]%Z MfClassicKeyTypeA (Some d)
              false false false Hfail)
    as (Hret & Hdata & _ & _ & Hrng & _).
  repeat split; assumption.
Defined.

(** Two halts in a row, the card silent. *)
Lemma mf_classic_poller_halt_twice_witness :
  let i :=
    sim_poller MfClassicAuthStatePassed
      [(Iso14443_3aErrorTimeout, bit_buffer_empty);
       (Iso14443_3aErrorTimeout, bit_buffer_empty)] in
  let r2 := mf_classic_poller_halt (snd (mf_classic_poller_halt i)) in
  fst r2 = MfClassicErrorNone /\
  auth_state (snd r2) = MfClassicAuthStateIdle.
Proof.
  intros i r2.
  destruct (mf_classic_poller_halt_twice i eq_refl)
    as (_ & Hret & Hst & _).
  split; assumption.
Defined.

(** A transfer acknowledged by the simulated card. *)
Lemma mf_classic_poller_value_transfer_outcome_witness :
  let r :=
    mf_classic_poller_value_transfer
      (sim_poller MfClassicAuthStatePassed
         [(Iso14443_3aErrorNone, nibble_frame 0x0A)]) 5 in
  fst r = MfClassicErrorNone.
Proof.
  intros r.
  destruct (mf_classic_poller_value_transfer_outcome
              (sim_poller MfClassicAuthStatePassed
                 [(Iso14443_3aErrorNone, nibble_frame 0x0A)]) 5 eq_refl)
    as (Hiff & _).
  apply Hiff. repeat split; vm_compute; reflexivity.
Defined.

(** A decrement refused by the card: the operand is not sent. *)
Lemma mf_classic_poller_value_cmd_outcome_witness :
  let i :=
    sim_poller MfClassicAuthStatePassed
      [(Iso14443_3aErrorNone, nibble_frame 0x04);
       (Iso14443_3aErrorTimeout, bit_buffer_empty)] in
  let r := mf_classic_poller_value_cmd i 5 MfClassicValueCommandDecrement 1 in
  fst r = MfClassicErrorProtocol /\
  length (transmissions (new_calls i (snd r))) = 1.
Proof.
  intros i r.
  destruct (mf_classic_poller_value_cmd_outcome i 5
              MfClassicValueCommandDecrement 1 eq_refl)
    as (_ & _ & Hone & _ & Hprotocol).
  assert (Hnack : ~ (Iso14443_3aErrorNone = Iso14443_3aErrorNone /\
                     bit_buffer_get_size (nibble_frame 0x04) = 4 /\
                     bit_buffer_get_byte
                       (decrypted_answer (crypto i)
                          (command_frame
                             (value_cmd_opcode MfClassicValueCommandDecrement) 5)
                          (nibble_frame 0x04)) 0
                     = MF_CLASSIC_CMD_ACK)).
  { intros (_ & _ & Hbyte). vm_compute in Hbyte. discriminate Hbyte. }
  split; [exact (Hprotocol eq_refl Hnack) |].
  unfold r. rewrite (Hone Hnack). reflexivity.
Defined.

(** A read that times out has still moved the cipher over the command. *)
Lemma mf_classic_poller_read_block_cipher_use_witness :
  let i :=
    sim_poller MfClassicAuthStatePassed
      [(Iso14443_3aErrorTimeout, bit_buffer_empty)] in
  let r := mf_classic_poller_read_block i 5 (zeroed 16) in
  crypto (snd r) = 4 /\ length (new_calls i (snd r)) = 2.
Proof.
  intros i r.
  destruct (mf_classic_poller_read_block_cipher_use i 5 (zeroed 16) eq_refl)
    as (_ & _ & Hfail).
  assert (Hcase : Iso14443_3aErrorTimeout <> Iso14443_3aErrorNone \/
                  bit_buffer_get_size_bytes bit_buffer_empty <> 18)
    by (left; discriminate).
  destruct (Hfail Hcase) as (Hcalls & Hcrypto & _).
  split; [exact Hcrypto |].
  unfold r. rewrite Hcalls. reflexivity.
Defined.

(** A caller's frame sent encrypted, and the answer handed back. *)
Lemma mf_classic_poller_send_encrypted_frame_outcome_witness :
  let r :=
    mf_classic_poller_send_encrypted_frame
      (sim_poller MfClassicAuthStatePassed
         [(Iso14443_3aErrorNone, frame [0x0A; 0x0B]%Z)])
      (frame [0x30; 0x03]%Z) bit_buffer_empty 60000 in
  fst (fst r) = MfClassicErrorNone /\
  snd (fst r) = frame [0x0A; 0x0B]%Z.
Proof.
  intros r.
  destruct (mf_classic_poller_send_encrypted_frame_outcome
              (sim_poller MfClassicAuthStatePassed
                 [(Iso14443_3aErrorNone, frame [0x0A; 0x0B]%Z)])
              (frame [0x30; 0x03]%Z) bit_buffer_empty 60000 eq_refl)
    as (Hiff & Hok & _).
  split; [apply Hiff; reflexivity |].
  exact (proj1 (Hok eq_refl)).
Defined.

(** A caller's frame sent in plain, with a checksum failure reported. *)
Lemma mf_classic_poller_send_plain_frames_witness :
  let r :=
    mf_classic_poller_send_standard_frame
      (sim_poller MfClassicAuthStateIdle
         [(Iso14443_3aErrorWrongCrc, frame [0x04; 0x00]%Z)])
      (frame [0x26]%Z) bit_buffer_empty 60000 in
  fst (fst r) = MfClassicErrorProtocol /\
  snd (fst r) = frame [0x04; 0x00]%Z.
Proof.
  intros r.
  destruct (mf_classic_poller_send_plain_frames
              (sim_poller MfClassicAuthStateIdle
                 [(Iso14443_3aErrorWrongCrc, frame [0x04; 0x00]%Z)])
              (frame [0x26]%Z) bit_buffer_empty 60000 eq_refl)
    as ((Hret & _ & Hrx & _) & _).
  split; [exact Hret | exact Hrx].
Defined.
